(** * PetOne locations API: the tenant-scoped store of [server.js]

    A shallow embedding of the request handlers of [server.js] (the
    file-backed store, [getTenant], [upsertDevice],
    [resolvePetIdByIdentifier] and the route bodies) together with the
    properties of the specification that concern them.

    Scope of the embedding.  JavaScript values are the values that
    [JSON.parse] builds, plus [undefined] and named properties added to
    arrays by assignment.  Property access is access to own data
    properties: keys are assumed not to name members inherited from
    [Object.prototype] or [Array.prototype].  Strings are sequences of
    code units written as Rocq characters.  The script runs in sloppy
    mode, so assigning a property of a primitive is silently ignored.
    Writes to the data file always succeed, and the credential check
    (which yields the tenant identifier [uid]) is outside the model.

    The command-line tools [seed.js] and [findUid.js] follow the server:
    their argument parser, and the store as [seed.js] loads and extends
    it. *)

From Stdlib Require Import ZArith NArith Lia.
From stdpp Require Import base option list strings pretty.

Set Warnings "-register-all".
Local Open Scope string_scope.
Local Open Scope list_scope.

(** ** Numbers

    IEEE doubles are kept abstract: the handlers only coerce, compare and
    print them.  Each field names the JavaScript operation it stands for. *)

Class JsNum (num : Type) := {
  (** [a === b] on numbers *)
  num_seq : num → num → bool;
  (** [Boolean(n)]: false for zeros and NaN *)
  num_truthy : num → bool;
  (** the number read back from [JSON.stringify(n)], [None] when that is [null] *)
  num_json : num → option num;
  (** [String(n)] *)
  num_to_string : num → string;
  (** [Number(s)] on a string *)
  string_to_num : string → num;
  (** the number with a given natural value *)
  num_of_N : N → num;
  (** the array length a number denotes, when it is a valid one *)
  num_to_length : num → option N;
  (** [new Date(n).toISOString()], [None] when it raises [RangeError] *)
  date_iso : num → option string;
}.

(** ** Exceptions and the error monad of the request handler *)

Inductive exn := InvalidJSON | TypeError | RangeError.

Inductive result (A : Type) :=
| Ok (a : A)
| Throw (x : exn).
Arguments Ok {A} a.
Arguments Throw {A} x.

Global Instance result_bind : MBind result := λ A B f m,
  match m with
  | Ok a => f a
  | Throw x => Throw x
  end.

(** [err.message] as reported by the final [catch] of the request handler;
    the text of engine-raised errors is engine-defined and is represented
    by the name of the error class. *)
Definition message (x : exn) : string :=
  match x with
  | InvalidJSON => "Invalid JSON"
  | TypeError => "TypeError"
  | RangeError => "RangeError"
  end.

(** Text handed to [JSON.parse]: the empty string, a text that does not
    parse, or the text of a JSON value. *)
Inductive text (V : Type) :=
| Blank
| Malformed
| Json (v : V).
Arguments Blank {V}.
Arguments Malformed {V}.
Arguments Json {V} v.

(** Per-request readings of the clock and of the id generator:
    [clock k] is the result of the [k]-th [new Date().toISOString()] of the
    request, [stamp36] and [rand36] the two base-36 parts of [genId()]. *)
Record env := {
  clock : nat → string;
  stamp36 : string;
  rand36 : string;
}.

Definition genId (e : env) : string :=
  "loc_" +:+ stamp36 e +:+ "_" +:+ rand36 e.

(** Canonical array index: the decimal numeral of a natural below 2^32 - 1. *)
Definition digit_of (c : Ascii.ascii) : option N :=
  let n := Ascii.N_of_ascii c in
  if (48 <=? n)%N && (n <=? 57)%N then Some (n - 48)%N else None.

Fixpoint digits_to_N (s : string) (acc : N) : option N :=
  match s with
  | EmptyString => Some acc
  | String c r =>
      match digit_of c with
      | Some d => digits_to_N r (10 * acc + d)%N
      | None => None
      end
  end.

Definition array_index (k : string) : option N :=
  match k with
  | EmptyString => None
  | _ =>
      match digits_to_N k 0 with
      | Some n =>
          if String.eqb (pretty n) k && (n <? 4294967295)%N then Some n else None
      | None => None
      end
  end.

Section Model.
Context {num : Type} `{JsNum num}.

(** ** Values *)

Inductive value :=
| VUndef
| VNull
| VBool (b : bool)
| VNum (n : num)
| VStr (s : string)
| VArr (elems : list value) (named : list (string * value))
| VObj (props : list (string * value)).

Definition props := list (string * value).

(** *** Property lists (own properties in insertion order) *)

Fixpoint oget (ps : props) (k : string) : option value :=
  match ps with
  | [] => None
  | (k', v) :: r => if String.eqb k' k then Some v else oget r k
  end.

Fixpoint oset (ps : props) (k : string) (v : value) : props :=
  match ps with
  | [] => [(k, v)]
  | (k', v') :: r =>
      if String.eqb k' k then (k, v) :: r else (k', v') :: oset r k v
  end.

(** [Object.assign]-style copy, as performed by a spread element. *)
Definition assign (target src : props) : props :=
  fold_left (λ acc kv, oset acc kv.1 kv.2) src target.

(** *** Primitive operations *)

Definition truthy (v : value) : bool :=
  match v with
  | VUndef | VNull => false
  | VBool b => b
  | VNum n => num_truthy n
  | VStr s => negb (String.eqb s "")
  | VArr _ _ | VObj _ => true
  end.

(** [v == null] *)
Definition nullish (v : value) : bool :=
  match v with
  | VUndef | VNull => true
  | _ => false
  end.

Definition is_array (v : value) : bool :=
  match v with
  | VArr _ _ => true
  | _ => false
  end.

(** [typeof v === 'object'] *)
Definition typeof_object (v : value) : bool :=
  match v with
  | VNull | VArr _ _ | VObj _ => true
  | _ => false
  end.

(** Objects and arrays are held by reference. *)
Definition is_ref (v : value) : bool :=
  match v with
  | VArr _ _ | VObj _ => true
  | _ => false
  end.

(** [a === b].  Every comparison of the program is between a value of the
    request and a value of the loaded store, two separate parses: objects
    and arrays are then never the same reference. *)
Definition strict_eq (a b : value) : bool :=
  match a, b with
  | VUndef, VUndef => true
  | VNull, VNull => true
  | VBool x, VBool y => Bool.eqb x y
  | VNum x, VNum y => num_seq x y
  | VStr x, VStr y => String.eqb x y
  | _, _ => false
  end.

(** [String(v)] *)
Fixpoint to_string (v : value) : string :=
  match v with
  | VUndef => "undefined"
  | VNull => "null"
  | VBool true => "true"
  | VBool false => "false"
  | VNum n => num_to_string n
  | VStr s => s
  | VArr l _ =>
      (fix join (l : list value) : string :=
         match l with
         | [] => ""
         | x :: r =>
             let sx := match x with
                       | VUndef | VNull => ""
                       | _ => to_string x
                       end in
             match r with
             | [] => sx
             | _ => sx +:+ "," +:+ join r
             end
         end) l
  | VObj _ => "[object Object]"
  end.

(** [Number(v)]; [Number(undefined)] is NaN, as is [Number("undefined")]. *)
Definition to_number (v : value) : num :=
  match v with
  | VUndef => string_to_num "undefined"
  | VNull => num_of_N 0
  | VBool true => num_of_N 1
  | VBool false => num_of_N 0
  | VNum n => n
  | VStr s => string_to_num s
  | VArr _ _ | VObj _ => string_to_num (to_string v)
  end.

(** The value read back from [JSON.stringify(v)] for [v] in an array or
    at the top level; [undefined]-valued properties of objects are left
    out, named properties of arrays are not serialised. *)
Fixpoint to_json (v : value) : value :=
  match v with
  | VUndef => VNull
  | VNum n =>
      match num_json n with
      | Some m => VNum m
      | None => VNull
      end
  | VArr l _ => VArr (map to_json l) []
  | VObj ps =>
      VObj ((fix go (ps : props) : props :=
               match ps with
               | [] => []
               | (k, w) :: r =>
                   match w with
                   | VUndef => go r
                   | _ => (k, to_json w) :: go r
                   end
               end) ps)
  | _ => v
  end.

(** Own enumerable properties copied by a spread element [...v]. *)
Fixpoint indexed (i : N) (l : list value) : props :=
  match l with
  | [] => []
  | x :: r => (pretty i, x) :: indexed (N.succ i) r
  end.

Fixpoint chars (s : string) : list value :=
  match s with
  | EmptyString => []
  | String c r => VStr (String c EmptyString) :: chars r
  end.

Definition own_props (v : value) : props :=
  match v with
  | VObj ps => ps
  | VArr l x => indexed 0 l ++ x
  | VStr s => indexed 0 (chars s)
  | _ => []
  end.

(** [v[k]] / [v.k] *)
Definition get_prop (v : value) (k : string) : result value :=
  match v with
  | VUndef | VNull => Throw TypeError
  | VBool _ | VNum _ => Ok VUndef
  | VStr s =>
      if String.eqb k "length" then Ok (VNum (num_of_N (N.of_nat (String.length s))))
      else match array_index k with
           | Some i => Ok (default VUndef (chars s !! N.to_nat i))
           | None => Ok VUndef
           end
  | VArr l x =>
      if String.eqb k "length" then Ok (VNum (num_of_N (N.of_nat (length l))))
      else match array_index k with
           | Some i => Ok (default VUndef (l !! N.to_nat i))
           | None => Ok (default VUndef (oget x k))
           end
  | VObj ps => Ok (default VUndef (oget ps k))
  end.

(** [v?.k] *)
Definition opt_get (v : value) (k : string) : result value :=
  if nullish v then Ok VUndef else get_prop v k.

(** [v[k] = w]; the result is the receiver after the assignment.
    An array written past its end is extended, the gap reading as
    [undefined]. *)
Definition set_prop (v : value) (k : string) (w : value) : result value :=
  match v with
  | VUndef | VNull => Throw TypeError
  | VBool _ | VNum _ | VStr _ => Ok v
  | VArr l x =>
      if String.eqb k "length" then
        match num_to_length (to_number w) with
        | Some n =>
            Ok (VArr (take (N.to_nat n) l ++ replicate (N.to_nat n - length l) VUndef) x)
        | None => Throw RangeError
        end
      else match array_index k with
           | Some i =>
               if (N.to_nat i <? length l)%nat then Ok (VArr (<[N.to_nat i := w]> l) x)
               else Ok (VArr (l ++ replicate (N.to_nat i - length l) VUndef ++ [w]) x)
           | None => Ok (VArr l (oset x k w))
           end
  | VObj ps => Ok (VObj (oset ps k w))
  end.

(** The receiver of an array method: anything else has no such method and
    the call raises [TypeError]. *)
Definition as_array (v : value) : result (list value * props) :=
  match v with
  | VArr l x => Ok (l, x)
  | _ => Throw TypeError
  end.

(** [Array.prototype.findIndex], [find] and [filter] with a callback that
    may raise. *)
Fixpoint find_index (p : value → result bool) (l : list value) : result (option nat) :=
  match l with
  | [] => Ok None
  | v :: r =>
      b ← p v;
      if b : bool then Ok (Some 0%nat)
      else i ← find_index p r; Ok (option_map S i)
  end.

Fixpoint find_first (p : value → result bool) (l : list value) : result value :=
  match l with
  | [] => Ok VUndef
  | v :: r =>
      b ← p v;
      if b : bool then Ok v else find_first p r
  end.

Fixpoint filter_m (p : value → result bool) (l : list value) : result (list value) :=
  match l with
  | [] => Ok []
  | v :: r =>
      b ← p v;
      r' ← filter_m p r;
      Ok (if b : bool then v :: r' else r')
  end.

(** ** The data file

    The state of [storage/locations.json]: [None] when the file does not
    exist, otherwise its text.  [writeData] replaces it by renaming a
    temporary file, which is rendered here as one assignment. *)

Definition file := option (text value).

Definition obj_error (msg : string) : value := VObj [("error", VStr msg)].

Definition empty_store : value := VObj [("tenants", VObj [])].

Definition fresh_tenant : value :=
  VObj [("locations", VArr [] []); ("devices", VArr [] [])].

Definition ensureDataFile (f : file) : file :=
  match f with
  | None => Some (Json (VObj [("locations", VArr [] [])]))
  | Some t => Some t
  end.

(** [JSON.parse(raw || '{}')]: a blank text parses as the empty object. *)
Definition parse_or_empty (t : text value) : result value :=
  match t with
  | Blank => Ok (VObj [])
  | Malformed => Throw InvalidJSON
  | Json v => Ok v
  end.

Definition readData (f : file) : value * file :=
  let f1 := ensureDataFile f in
  let raw := match f1 with Some t => t | None => Blank end in
  let loaded :=
    json ← parse_or_empty raw;
    if negb (truthy json) || negb (typeof_object json) then Ok empty_store
    else
      locs ← get_prop json "locations";
      if is_array locs then
        Ok (VObj [("tenants",
                   VObj [("default",
                          VObj [("locations", locs); ("devices", VArr [] [])])])])
      else
        ts ← get_prop json "tenants";
        if negb (truthy ts) || negb (typeof_object ts)
        then set_prop json "tenants" (VObj [])
        else Ok json in
  (match loaded with
   | Ok data => data
   | Throw _ => empty_store
   end, f1).

Definition writeData (data : value) (f : file) : file :=
  Some (Json (to_json data)).

(** [parseBody]: an empty body is the empty object. *)
Definition parseBody (body : text value) : result value :=
  match body with
  | Blank => Ok (VObj [])
  | Malformed => Throw InvalidJSON
  | Json v => Ok v
  end.

(** ** Tenants *)

(** [o[k].f = w]: the object that [o[k]] refers to is changed in place.
    When [o[k]] is a primitive nothing is changed. *)
Definition set_inner (o : value) (k f : string) (w : value) : result value :=
  t ← get_prop o k;
  t' ← set_prop t f w;
  if is_ref t then set_prop o k t' else Ok o.

(** [getTenant(data, uid)]: the store after the call and the value of
    [data.tenants[uid]] that is returned. *)
Definition getTenant (data : value) (uid : string) : result (value * value) :=
  ts ← get_prop data "tenants";
  t ← get_prop ts uid;
  ts ← (if negb (truthy t) then set_prop ts uid fresh_tenant else Ok ts);
  t ← get_prop ts uid;
  l ← get_prop t "locations";
  ts ← (if negb (is_array l) then set_inner ts uid "locations" (VArr [] []) else Ok ts);
  t ← get_prop ts uid;
  d ← get_prop t "devices";
  ts ← (if negb (is_array d) then set_inner ts uid "devices" (VArr [] []) else Ok ts);
  t ← get_prop ts uid;
  data' ← set_prop data "tenants" ts;
  Ok (data', t).

(** The store once the handler has changed, in place, the tenant that
    [getTenant] returned. *)
Definition put_tenant (data : value) (uid : string) (tenant : value) : result value :=
  ts ← get_prop data "tenants";
  old ← get_prop ts uid;
  ts' ← (if is_ref old then set_prop ts uid tenant else Ok ts);
  set_prop data "tenants" ts'.

(** ** Device registry *)

(** The callback [(code && d.code === code) || (deviceId && d.deviceId === deviceId)],
    by its truth value. *)
Definition match_device (code deviceId d : value) : result bool :=
  a ← (if truthy code then c ← get_prop d "code"; Ok (strict_eq c code) else Ok false);
  if a : bool then Ok true
  else if truthy deviceId then x ← get_prop d "deviceId"; Ok (strict_eq x deviceId)
  else Ok false.

(** [upsertDevice(tenant, payload)]: the tenant after the call and the
    value returned. *)
Definition upsertDevice (e : env) (tenant payload : value) : result (value * value) :=
  petId ← get_prop payload "petId";
  code ← get_prop payload "code";
  deviceId ← get_prop payload "deviceId";
  name ← get_prop payload "name";
  let dev : props :=
    [("petId", petId); ("code", code); ("deviceId", deviceId); ("name", name);
     ("updatedAt", VStr (clock e 0))] in
  devs ← get_prop tenant "devices";
  '(l, x) ← as_array devs;
  idx ← find_index (match_device code deviceId) l;
  match idx with
  | Some i =>
      let merged := VObj (assign (assign [] (own_props (default VUndef (l !! i)))) dev) in
      tenant' ← set_prop tenant "devices" (VArr (<[i := merged]> l) x);
      Ok (tenant', merged)
  | None =>
      let created := VObj (oset (assign [] dev) "createdAt" (VStr (clock e 1))) in
      tenant' ← set_prop tenant "devices" (VArr (l ++ [created]) x);
      Ok (tenant', VObj dev)
  end.

Definition resolvePetIdByIdentifier (tenant code deviceId : value) : result value :=
  devs ← get_prop tenant "devices";
  '(l, _) ← as_array devs;
  found ← find_first (match_device code deviceId) l;
  opt_get found "petId".

(** ** Route bodies

    A handler answers with a status and a value, and either leaves the
    data file alone or saves the store with the tenant it has changed. *)

Record reply := Reply { status : nat; body : value }.

Inductive commit :=
| Keep
| Save (tenant : value).

Definition js_or (a b : value) : value := if truthy a then a else b.

Definition of_query (q : option string) : value :=
  match q with
  | Some s => VStr s
  | None => VNull
  end.

(** GET /localizacao/:petId *)
Definition list_locations (tenant : value) (petId : string) : result (reply * commit) :=
  locs ← get_prop tenant "locations";
  '(l, _) ← as_array locs;
  list ← filter_m (λ el, p ← get_prop el "petId";
                         Ok (String.eqb (to_string p) (to_string (VStr petId)))) l;
  Ok (Reply 200 (VArr list []), Keep).

(** POST /localizacao *)
Definition upsert_location (e : env) (uid : string) (tenant : value) (body : text value)
  : result (reply * commit) :=
  payload ← parseBody body;
  let now := clock e 0 in
  let loc := js_or payload (VObj []) in
  id ← get_prop loc "id";
  loc ← (if negb (truthy id) then set_prop loc "id" (VStr (genId e)) else Ok loc);
  loc ← set_prop loc "uid" (VStr uid);
  locs ← get_prop tenant "locations";
  '(l, x) ← as_array locs;
  idx ← find_index (λ el, a ← get_prop el "id"; b ← get_prop loc "id";
                          Ok (strict_eq a b)) l;
  match idx with
  | Some i =>
      let merged :=
        VObj (oset (assign (assign [] (own_props (default VUndef (l !! i))))
                           (own_props loc))
                   "updatedAt" (VStr now)) in
      tenant' ← set_prop tenant "locations" (VArr (<[i := merged]> l) x);
      Ok (Reply 200 merged, Save tenant')
  | None =>
      c ← get_prop loc "createdAt";
      loc ← (if negb (truthy c) then set_prop loc "createdAt" (VStr now) else Ok loc);
      tenant' ← set_prop tenant "locations" (VArr (l ++ [loc]) x);
      Ok (Reply 201 loc, Save tenant')
  end.

(** POST /locations/ingest *)
Definition ingest (e : env) (uid : string) (tenant : value) (body : text value)
  : result (reply * commit) :=
  payload ← parseBody body;
  let p := js_or payload (VObj []) in
  code ← get_prop p "code";
  deviceId ← get_prop p "deviceId";
  lat ← get_prop p "lat";
  lng ← get_prop p "lng";
  accuracy ← get_prop p "accuracy";
  speed ← get_prop p "speed";
  timestamp ← get_prop p "timestamp";
  if negb (truthy code) && negb (truthy deviceId)
  then Ok (Reply 400 (obj_error "code or deviceId required"), Keep)
  else
    petId ← resolvePetIdByIdentifier tenant code deviceId;
    if negb (truthy petId)
    then Ok (Reply 404 (obj_error "Pet not found for given identifier"), Keep)
    else
      let nowIso := clock e 0 in
      let id := genId e in
      label ← opt_get payload "label";
      createdAt ← (if truthy timestamp
                   then match date_iso (to_number timestamp) with
                        | Some s => Ok (VStr s)
                        | None => Throw RangeError
                        end
                   else Ok (VStr nowIso));
      let loc := VObj
        [("id", VStr id);
         ("petId", petId);
         ("label", js_or label (VStr "device"));
         ("latitude", VNum (to_number lat));
         ("longitude", VNum (to_number lng));
         ("accuracy", if nullish accuracy then VUndef else VNum (to_number accuracy));
         ("speed", if nullish speed then VUndef else VNum (to_number speed));
         ("createdAt", createdAt);
         ("origin", VStr "device");
         ("createdBy", js_or deviceId (js_or code (VStr "unknown")));
         ("uid", VStr uid)] in
      locs ← get_prop tenant "locations";
      '(l, x) ← as_array locs;
      tenant' ← set_prop tenant "locations" (VArr (l ++ [loc]) x);
      Ok (Reply 201 loc, Save tenant').

(** POST /devices/register *)
Definition register_device (e : env) (tenant : value) (body : text value)
  : result (reply * commit) :=
  payload ← parseBody body;
  petId ← opt_get payload "petId";
  if negb (truthy petId) then Ok (Reply 400 (obj_error "petId required"), Keep)
  else
    code ← opt_get payload "code";
    deviceId ← opt_get payload "deviceId";
    if negb (truthy code) && negb (truthy deviceId)
    then Ok (Reply 400 (obj_error "code or deviceId required"), Keep)
    else
      '(tenant', dev) ← upsertDevice e tenant payload;
      Ok (Reply 201 dev, Save tenant').

(** GET /devices *)
Definition list_devices (tenant : value) : result (reply * commit) :=
  devs ← get_prop tenant "devices";
  Ok (Reply 200 (js_or devs (VArr [] [])), Keep).

(** POST /devices/detach *)
Definition detach_device (e : env) (tenant : value) (body : text value)
    (qcode qdeviceId : option string) : result (reply * commit) :=
  payload ← parseBody body;
  pc ← opt_get payload "code";
  let code := js_or pc (of_query qcode) in
  pd ← opt_get payload "deviceId";
  let deviceId := js_or pd (of_query qdeviceId) in
  if negb (truthy code) && negb (truthy deviceId)
  then Ok (Reply 400 (obj_error "code or deviceId required"), Keep)
  else
    devs ← get_prop tenant "devices";
    '(l, x) ← as_array devs;
    idx ← find_index (match_device code deviceId) l;
    match idx with
    | None => Ok (Reply 404 (obj_error "Device not found"), Keep)
    | Some i =>
        d ← set_prop (default VUndef (l !! i)) "petId" VNull;
        d ← set_prop d "updatedAt" (VStr (clock e 0));
        tenant' ← set_prop tenant "devices" (VArr (<[i := d]> l) x);
        Ok (Reply 200 d, Save tenant')
    end.

(** DELETE /devices *)
Definition delete_device (tenant : value) (body : text value)
    (qcode qdeviceId : option string) : result (reply * commit) :=
  let '(code, deviceId) :=
    match (b ← parseBody body;
           bc ← opt_get b "code";
           bd ← opt_get b "deviceId";
           Ok (js_or (of_query qcode) bc, js_or (of_query qdeviceId) bd)) with
    | Ok cd => cd
    | Throw _ => (of_query qcode, of_query qdeviceId)
    end in
  if negb (truthy code) && negb (truthy deviceId)
  then Ok (Reply 400 (obj_error "code or deviceId required"), Keep)
  else
    devs ← get_prop tenant "devices";
    '(l, _) ← as_array devs;
    l' ← filter_m (λ d, m ← match_device code deviceId d; Ok (negb m)) l;
    let deleted := (length l - length l')%nat in
    if (deleted =? 0)%nat then Ok (Reply 404 (obj_error "Device not found"), Keep)
    else
      tenant' ← set_prop tenant "devices" (VArr l' []);
      Ok (Reply 200 (VObj [("ok", VBool true);
                           ("deleted", VNum (num_of_N (N.of_nat deleted)))]),
          Save tenant').

(** DELETE /localizacao/:id *)
Definition delete_location (tenant : value) (id : string) : result (reply * commit) :=
  locs ← get_prop tenant "locations";
  '(l, _) ← as_array locs;
  l' ← filter_m (λ el, a ← get_prop el "id"; Ok (negb (strict_eq a (VStr id)))) l;
  if (length l' =? length l)%nat then Ok (Reply 404 (obj_error "Not found"), Keep)
  else
    tenant' ← set_prop tenant "locations" (VArr l' []);
    Ok (Reply 200 (VObj [("ok", VBool true)]), Save tenant').

(** DELETE /localizacao?petId=... *)
Definition delete_locations (tenant : value) (petId : option string)
  : result (reply * commit) :=
  let pet := of_query petId in
  locs ← get_prop tenant "locations";
  '(l, _) ← as_array locs;
  l' ← (if truthy pet
        then filter_m (λ el, p ← get_prop el "petId";
                             Ok (negb (String.eqb (to_string p) (to_string pet)))) l
        else Ok []);
  tenant' ← set_prop tenant "locations" (VArr l' []);
  let deleted := (length l - length l')%nat in
  Ok (Reply 200 (VObj [("ok", VBool true);
                       ("deleted", VNum (num_of_N (N.of_nat deleted)));
                       ("scope", if truthy pet then VObj [("petId", pet)]
                                 else VStr "all")]),
      Save tenant').

(** ** The server

    A request, once the method and the path have selected a route (the
    routes answered before the store is loaded, OPTIONS and /health, are
    left out). *)

Inductive request :=
| ListLocations (petId : string)
| UpsertLocation (body : text value)
| Ingest (body : text value)
| RegisterDevice (body : text value)
| ListDevices
| DetachDevice (body : text value) (qcode qdeviceId : option string)
| DeleteDevice (body : text value) (qcode qdeviceId : option string)
| DeleteLocation (id : string)
| DeleteLocations (petId : option string)
| NoRoute.

Definition route (e : env) (uid : string) (tenant : value) (req : request)
  : result (reply * commit) :=
  match req with
  | ListLocations petId => list_locations tenant petId
  | UpsertLocation b => upsert_location e uid tenant b
  | Ingest b => ingest e uid tenant b
  | RegisterDevice b => register_device e tenant b
  | ListDevices => list_devices tenant
  | DetachDevice b qc qd => detach_device e tenant b qc qd
  | DeleteDevice b qc qd => delete_device tenant b qc qd
  | DeleteLocation id => delete_location tenant id
  | DeleteLocations petId => delete_locations tenant petId
  | NoRoute => Ok (Reply 404 (obj_error "Route not found"), Keep)
  end.

(** The part of a request between loading and saving: the reply and the
    store to be saved, if any. *)
Definition process (e : env) (uid : string) (req : request) (data : value)
  : result (reply * option value) :=
  '(data1, tenant) ← getTenant data uid;
  '(r, c) ← route e uid tenant req;
  match c with
  | Keep => Ok (r, None)
  | Save tenant' => data2 ← put_tenant data1 uid tenant'; Ok (r, Some data2)
  end.

(** [sendJson]: the body as the client reads it. *)
Definition sendJson (r : reply) : reply := Reply (status r) (to_json (body r)).

(** One request under tenant [uid] against the data file. *)
Definition server (e : env) (uid : string) (req : request) (f : file) : reply * file :=
  let '(data, f1) := readData f in
  match process e uid req data with
  | Ok (r, None) => (sendJson r, f1)
  | Ok (r, Some data') => (sendJson r, writeData data' f1)
  | Throw x => (sendJson (Reply 400 (obj_error (message x))), f1)
  end.

(** ** Vocabulary of the statements *)

(** The value of [v.k]; [undefined] where reading it raises, that is when
    [v] is [null] or [undefined]. *)
Definition field (v : value) (k : string) : value :=
  match get_prop v k with
  | Ok x => x
  | Throw _ => VUndef
  end.

(** A value whose properties can be read. *)
Definition readable (v : value) : Prop := nullish v = false.

(** A record as [JSON.parse] builds it: an object with distinct property
    names. *)
Definition record (v : value) : Prop := ∃ ps, v = VObj ps ∧ NoDup ps.*1.

(** The truth value of the device-matching callback. *)
Definition matches (code deviceId d : value) : bool :=
  truthy code && strict_eq (field d "code") code
  || truthy deviceId && strict_eq (field d "deviceId") deviceId.


(** [t] after [t.f = w]. *)
Definition written (t : value) (f : string) (w : value) : value :=
  match set_prop t f w with
  | Ok t' => t'
  | Throw _ => t
  end.

(** [t] after [if (!Array.isArray(t.f)) t.f = []]. *)
Definition ensure_array (t : value) (f : string) : value :=
  if is_array (field t f) then t else written t f (VArr [] []).

(** [getTenant] seen from the tenant entry alone: the value it returns
    for an entry [t] ([undefined] when the tenant is not in the store).
    [tenant_of_store] relates the two. *)
Definition normalized (t : value) : value :=
  ensure_array (ensure_array (if truthy t then t else fresh_tenant) "locations") "devices".

(** The entry of tenant [uid] in a store. *)
Definition entry (data : value) (uid : string) : value :=
  field (field data "tenants") uid.

(** The record that POST /localizacao makes of an object payload [pp]
    before looking it up: the generated id when the payload has none, then
    the tenant of the caller. *)
Definition incoming (e : env) (uid : string) (pp : props) : props :=
  oset (if truthy (default VUndef (oget pp "id")) then pp
        else oset pp "id" (VStr (genId e)))
       "uid" (VStr uid).


(** [d], at index [i], is the first device of [l] whose code is [c]. *)
Definition first_with_code (c : string) (l : list value) (i : nat) (d : value) : Prop :=
  l !! i = Some d
  ∧ strict_eq (field d "code") (VStr c) = true
  ∧ ∀ j d', l !! j = Some d' → (j < i)%nat → strict_eq (field d' "code") (VStr c) = false.

(** Values as [JSON.parse] builds them: no [undefined], numbers that
    [JSON.stringify] writes back unchanged, arrays without named
    properties, objects with distinct property names. *)
Inductive json_value : value → Prop :=
| json_null : json_value VNull
| json_bool b : json_value (VBool b)
| json_num n : num_json n = Some n → json_value (VNum n)
| json_str s : json_value (VStr s)
| json_arr l : Forall json_value l → json_value (VArr l [])
| json_obj ps :
    NoDup ps.*1 → Forall (λ kv, json_value kv.2) ps → json_value (VObj ps).

(** The properties that [JSON.stringify] writes for an object. *)
Definition json_props (ps : props) : props :=
  omap (λ kv, match kv.2 with
              | VUndef => None
              | w => Some (kv.1, to_json w)
              end) ps.

(** The file texts in which [readData] finds no store: a blank text, a
    text that does not parse, and the JSON of a value that is not an object
    or an array. *)
Definition unrecoverable (c : text value) : Prop :=
  match c with
  | Blank => True
  | Malformed => True
  | Json v => negb (truthy v) || negb (typeof_object v) = true
  end.

(** The id that POST /localizacao looks up for an object payload [pp]:
    the payload's when it is truthy, else the generated one. *)
Definition effective_id (e : env) (pp : props) : value :=
  if truthy (default VUndef (oget pp "id")) then default VUndef (oget pp "id")
  else VStr (genId e).

(** The identifiers that DELETE /devices uses: a query parameter when it
    is non-empty, else the property of the body; the query parameters
    alone when the body does not parse. *)
Definition delete_identifiers (b : text value) (qcode qdeviceId : option string)
  : value * value :=
  match parseBody b with
  | Ok p => (js_or (of_query qcode) (field p "code"),
             js_or (of_query qdeviceId) (field p "deviceId"))
  | Throw _ => (of_query qcode, of_query qdeviceId)
  end.

(** The identifiers that POST /devices/detach uses: the property of the
    body when it is truthy, else the query parameter. *)
Definition detach_identifiers (p : value) (qcode qdeviceId : option string)
  : value * value :=
  (js_or (field p "code") (of_query qcode),
   js_or (field p "deviceId") (of_query qdeviceId)).

(** The body of a request, for the routes that parse it before anything
    else and let the failure reach the handler of the server. *)
Definition parsed_body (req : request) : option (text value) :=
  match req with
  | UpsertLocation b | Ingest b | RegisterDevice b | DetachDevice b _ _ => Some b
  | _ => None
  end.

End Model.

Arguments value num : clear implicits.
Arguments props num : clear implicits.
Arguments file num : clear implicits.
Arguments request num : clear implicits.
Arguments reply num : clear implicits.
Arguments commit num : clear implicits.

(** * The command-line tools [seed.js] and [findUid.js] *)

(** ** Arguments

    [parseArgs] is the same function in both tools.  Its pattern (two
    dashes at the start, a first group of one or more characters other
    than the equals sign, an equals sign, and a second group of any
    characters that the dot matches, up to the end of the input) is read on
    strings of the code units that Rocq characters write: among these, the
    dot matches all but line feed and carriage return. *)

Definition equals_sign : Ascii.ascii := Ascii.ascii_of_N 61.

Definition line_terminator (c : Ascii.ascii) : bool :=
  Ascii.eqb c (Ascii.ascii_of_N 10) || Ascii.eqb c (Ascii.ascii_of_N 13).

(** [s] without the prefix [p], when it starts with it. *)
Fixpoint strip_prefix (p s : string) : option string :=
  match p, s with
  | EmptyString, _ => Some s
  | String a p', String b s' => if Ascii.eqb a b then strip_prefix p' s' else None
  | String _ _, EmptyString => None
  end.

(** The first group and the sign: the longest run of characters other
    than the equals sign, which must be followed by one; the run and what
    follows the sign. *)
Fixpoint split_equals (s : string) : option (string * string) :=
  match s with
  | EmptyString => None
  | String c r =>
      if Ascii.eqb c equals_sign then Some (EmptyString, r)
      else match split_equals r with
           | Some (k, v) => Some (String c k, v)
           | None => None
           end
  end.

(** The second group: every character to the end is matched by the dot. *)
Fixpoint one_line (s : string) : bool :=
  match s with
  | EmptyString => true
  | String c r => negb (line_terminator c) && one_line r
  end.

(** [a.match(...)] with the pattern of [parseArgs]: the groups [m[1]] and
    [m[2]] when it matches. *)
Definition match_arg (a : string) : option (string * string) :=
  match strip_prefix "--" a with
  | Some r =>
      match split_equals r with
      | Some (k, v) =>
          if negb (String.eqb k "") && one_line v then Some (k, v) else None
      | None => None
      end
  | None => None
  end.

(** The text of an argument that sets [k] to [v]. *)
Definition render_arg (k v : string) : string :=
  "--" +:+ k +:+ String equals_sign v.

(** The characters of a string. *)
Fixpoint characters (s : string) : list Ascii.ascii :=
  match s with
  | EmptyString => []
  | String c r => c :: characters r
  end.

Module Seed.
Section Model.
Context {num : Type} `{JsNum num}.


(** ** The store as [seed.js] loads it *)

Definition ensureFile (f : file num) : file num :=
  match f with
  | None => Some (Json (VObj [("tenants", VObj [])]))
  | Some t => Some t
  end.

Definition readData (f : file num) : value num * file num :=
  let f1 := ensureFile f in
  let raw := match f1 with Some t => t | None => Blank end in
  let loaded :=
    json ← parse_or_empty raw;
    locs ← get_prop json "locations";
    if is_array locs then
      Ok (VObj [("tenants", VObj [("default", VObj [("locations", locs)])])])
    else
      ts ← get_prop json "tenants";
      if negb (truthy ts) || negb (typeof_object ts)
      then set_prop json "tenants" (VObj [])
      else Ok json in
  (match loaded with
   | Ok data => data
   | Throw _ => empty_store
   end, f1).

Definition writeData (data : value num) (f : file num) : file num :=
  Some (Json (to_json data)).

(** [getTenant(data, uid)]: the store after the call and the value
    returned. *)
Definition getTenant (data : value num) (uid : string)
  : result (value num * value num) :=
  ts ← get_prop data "tenants";
  t ← get_prop ts uid;
  ts ← (if negb (truthy t) then set_prop ts uid (VObj [("locations", VArr [] [])])
        else Ok ts);
  t ← get_prop ts uid;
  data' ← set_prop data "tenants" ts;
  Ok (data', t).

(** [tenant.locations.push(loc)]: the tenant after the call. *)
Definition push (tenant loc : value num) : result (value num) :=
  locs ← get_prop tenant "locations";
  '(l, x) ← as_array locs;
  set_prop tenant "locations" (VArr (l ++ [loc]) x).

Fixpoint push_all (tenant : value num) (new : list (value num)) : result (value num) :=
  match new with
  | [] => Ok tenant
  | loc :: rest => tenant' ← push tenant loc; push_all tenant' rest
  end.

(** [main] from the loading of the store on: [new] are the locations that
    the loop builds, one for each turn, from the arguments, the clock and
    the random generator.  The result is the exception that ends the
    script, if any, and the data file it leaves. *)
Definition main (uid : string) (new : list (value num)) (f : file num)
  : option exn * file num :=
  let '(data, f1) := readData f in
  match ('(data1, tenant) ← getTenant data uid;
         tenant' ← push_all tenant new;
         put_tenant data1 uid tenant') with
  | Ok data2 => (None, writeData data2 f1)
  | Throw x => (Some x, f1)
  end.

End Model.
End Seed.


(** ** A number implementation for the examples

    Integers and NaN ([None]).  Numerals with a fraction or an exponent
    are outside this instance (it reads them as NaN); the examples use
    none. *)

Module TestNum.

Definition t := option Z.

Definition seq (a b : t) : bool :=
  match a, b with
  | Some x, Some y => (x =? y)%Z
  | _, _ => false
  end.

Definition is_truthy (a : t) : bool :=
  match a with
  | Some x => negb (x =? 0)%Z
  | None => false
  end.

Definition json (a : t) : option t :=
  match a with
  | Some x => Some (Some x)
  | None => None
  end.

Definition show (a : t) : string :=
  match a with
  | Some x => pretty x
  | None => "NaN"
  end.

Definition read (s : string) : t :=
  match s with
  | EmptyString => Some 0%Z
  | String (Ascii.Ascii true false true true false true false false) r =>
      match r with
      | EmptyString => None
      | _ => (λ n, (- Z.of_N n)%Z) <$> digits_to_N r 0
      end
  | _ => Z.of_N <$> digits_to_N s 0
  end.

Definition to_length (a : t) : option N :=
  match a with
  | Some x => if (0 <=? x)%Z && (x <? 4294967296)%Z then Some (Z.to_N x) else None
  | None => None
  end.

(** Zero-padded decimal of a non-negative integer. *)
Fixpoint zeros (n : nat) : string :=
  match n with
  | O => ""
  | S m => "0" +:+ zeros m
  end.

Definition pad (width : nat) (x : Z) : string :=
  let s := pretty x in
  zeros (width - String.length s) +:+ s.

(** Proleptic Gregorian date of an epoch-millisecond count, printed as
    [Date.prototype.toISOString] does. *)
Definition iso (a : t) : option string :=
  match a with
  | None => None
  | Some ms =>
      if (Z.abs ms <=? 8640000000000000)%Z then
        let day := (ms / 86400000)%Z in
        let r := (ms mod 86400000)%Z in
        let z := (day + 719468)%Z in
        let era := (z / 146097)%Z in
        let doe := (z - era * 146097)%Z in
        let yoe := ((doe - doe / 1460 + doe / 36524 - doe / 146096) / 365)%Z in
        let doy := (doe - (365 * yoe + yoe / 4 - yoe / 100))%Z in
        let mp := ((5 * doy + 2) / 153)%Z in
        let d := (doy - (153 * mp + 2) / 5 + 1)%Z in
        let m := (if (mp <? 10)%Z then mp + 3 else mp - 9)%Z in
        let y := (yoe + era * 400 + (if (m <=? 2)%Z then 1 else 0))%Z in
        let year :=
          if (0 <=? y)%Z && (y <=? 9999)%Z then pad 4 y
          else (if (y <? 0)%Z then "-" else "+") +:+ pad 6 (Z.abs y) in
        Some (year +:+ "-" +:+ pad 2 m +:+ "-" +:+ pad 2 d +:+ "T" +:+
              pad 2 (r / 3600000) +:+ ":" +:+ pad 2 (r / 60000 mod 60) +:+ ":" +:+
              pad 2 (r / 1000 mod 60) +:+ "." +:+ pad 3 (r mod 1000) +:+ "Z")
      else None
  end.

#[export] Instance js_num : JsNum t := {|
  num_seq := seq;
  num_truthy := is_truthy;
  num_json := json;
  num_to_string := show;
  string_to_num := read;
  num_of_N := λ n, Some (Z.of_N n);
  num_to_length := to_length;
  date_iso := iso;
|}.

End TestNum.

(** ** Sample data for the examples *)

Module Sample.

Definition val := value TestNum.t.

Definition e0 : env := {|
  clock := λ k, match k with
                | O => "2024-05-01T10:00:00.000Z"
                | _ => "2024-05-01T10:00:00.001Z"
                end;
  stamp36 := "lvo1x2ab";
  rand36 := "k3j9qz";
|}.

Definition home : val :=
  VObj [("id", VStr "a"); ("petId", VStr "P1"); ("label", VStr "home");
        ("latitude", VNum (Some 10%Z)); ("longitude", VNum (Some 20%Z));
        ("createdAt", VStr "2024-04-01T00:00:00.000Z"); ("uid", VStr "u1")].

Definition park : val :=
  VObj [("id", VStr "b"); ("petId", VStr "P2"); ("label", VStr "park");
        ("latitude", VNum (Some 11%Z)); ("longitude", VNum (Some 21%Z));
        ("createdAt", VStr "2024-04-02T00:00:00.000Z"); ("uid", VStr "u1")].

Definition tag : val :=
  VObj [("petId", VStr "P1"); ("code", VStr "C1"); ("deviceId", VStr "D1");
        ("name", VStr "Rex"); ("updatedAt", VStr "2024-04-01T00:00:00.000Z");
        ("createdAt", VStr "2024-04-01T00:00:00.000Z")].

Definition tenant1 : props TestNum.t :=
  [("locations", VArr [home; park] []); ("devices", VArr [tag] [])].

Definition tenant2 : props TestNum.t :=
  [("locations", VArr [] []); ("devices", VArr [] [])].

Definition tenants1 : props TestNum.t :=
  [("u1", VObj tenant1); ("u2", VObj tenant2)].

Definition store1 : props TestNum.t := [("tenants", VObj tenants1)].

Definition file1 : file TestNum.t := Some (Json (VObj store1)).

Definition empty_file : file TestNum.t := Some (Json (VObj [("tenants", VObj [])])).

(** A store in which the tag C1 of tenant u1 has been detached. *)
Definition file_detached : file TestNum.t :=
  Some (Json (VObj [("tenants",
    VObj [("u1",
           VObj [("locations", VArr [] []);
                 ("devices", VArr [VObj [("petId", VNull); ("code", VStr "C1")]] [])])])])).

End Sample.

(** * Properties *)

Section Properties.
Context {num : Type} `{JsNum num}.
Implicit Types (v w d : value num) (ps target src : props num) (l : list (value num)) (k : string).

(** ** Property lists *)

Lemma oget_oset ps k k' v :
  oget (oset ps k v) k' = if String.eqb k k' then Some v else oget ps k'.
Proof.
  induction ps as [|[k0 v0] r IH]; simpl.
  - done.
  - destruct (String.eqb k0 k) eqn:E; simpl.
    + apply String.eqb_eq in E as ->. by destruct (String.eqb k k').
    + destruct (String.eqb k0 k') eqn:E'; [|done].
      apply String.eqb_eq in E' as ->. by rewrite String.eqb_sym, E.
Qed.

Lemma oget_oset_eq ps k v : oget (oset ps k v) k = Some v.
Proof. by rewrite oget_oset, String.eqb_refl. Qed.

Lemma oget_oset_ne ps k k' v : k ≠ k' → oget (oset ps k v) k' = oget ps k'.
Proof.
  intros Hne. rewrite oget_oset.
  destruct (String.eqb k k') eqn:E; [|done]. by apply String.eqb_eq in E.
Qed.

Lemma oget_None_keys ps k : oget ps k = None ↔ k ∉ ps.*1.
Proof.
  induction ps as [|[k0 v0] r IH]; simpl.
  - split; [intros _; apply not_elem_of_nil | done].
  - destruct (String.eqb k0 k) eqn:E.
    + apply String.eqb_eq in E as ->. split; [done|]. intros []. left.
    + apply String.eqb_neq in E. rewrite IH, not_elem_of_cons.
      split; [intros ?; split; [congruence|done] | by intros [_ ?]].
Qed.

Lemma oset_keys_fresh ps k v : oget ps k = None → oset ps k v = ps ++ [(k, v)].
Proof.
  induction ps as [|[k0 v0] r IH]; simpl; [done|].
  destruct (String.eqb k0 k); [done|]. intros Hr. by rewrite IH.
Qed.

Lemma assign_cons target k v src :
  assign target ((k, v) :: src) = assign (oset target k v) src.
Proof. done. Qed.

(** Copying distinct properties into an empty object rebuilds the list. *)
Lemma assign_app_fresh target src :
  NoDup (target ++ src).*1 → assign target src = target ++ src.
Proof.
  revert target. induction src as [|[k v] r IH]; intros target Hnd.
  - by rewrite app_nil_r.
  - rewrite assign_cons.
    assert (oget target k = None) as Hk.
    { apply oget_None_keys. rewrite fmap_app in Hnd. simpl in Hnd.
      apply NoDup_app in Hnd as (_ & Hd & _). intros Hin. apply (Hd _ Hin). left. }
    rewrite (oset_keys_fresh _ _ _ Hk), IH.
    + by rewrite <-app_assoc.
    + by rewrite <-app_assoc.
Qed.

Lemma assign_nil_distinct src : NoDup src.*1 → assign [] src = src.
Proof. intros. by apply (assign_app_fresh []). Qed.

Lemma oget_assign target src k :
  NoDup src.*1 →
  oget (assign target src) k =
    match oget src k with
    | Some v => Some v
    | None => oget target k
    end.
Proof.
  revert target. induction src as [|[k0 v0] r IH]; intros target Hnd; [done|].
  simpl in Hnd. apply NoDup_cons in Hnd as [Hk0 Hnd].
  rewrite assign_cons, (IH _ Hnd), oget_oset. simpl.
  destruct (String.eqb k0 k) eqn:E; [|done].
  apply String.eqb_eq in E as ->.
  by apply oget_None_keys in Hk0 as ->.
Qed.

(** ** Reading and writing properties *)

Lemma get_prop_field v k : readable v → get_prop v k = Ok (field v k).
Proof.
  unfold readable, field. destruct v; simpl; try done.
  - intros _. destruct (String.eqb k "length"); [done|]. by destruct (array_index k).
  - intros _. destruct (String.eqb k "length"); [done|]. by destruct (array_index k).
Qed.

Lemma get_prop_obj ps k : get_prop (VObj ps) k = Ok (default VUndef (oget ps k)).
Proof. done. Qed.

Lemma field_obj ps k : field (VObj ps) k = default VUndef (oget ps k).
Proof. done. Qed.

Lemma record_readable v : record v → readable v.
Proof. by intros (ps & -> & _). Qed.

Lemma opt_get_field v k : opt_get v k = Ok (field v k).
Proof.
  unfold opt_get. destruct (nullish v) eqn:E; [by destruct v|].
  by apply get_prop_field.
Qed.

Lemma match_device_matches code deviceId d :
  readable d → match_device code deviceId d = Ok (matches code deviceId d).
Proof.
  intros Hd. unfold match_device, matches.
  rewrite !get_prop_field by done.
  destruct (truthy code); simpl; [|by destruct (truthy deviceId)].
  destruct (strict_eq _ code); simpl; [done|]. by destruct (truthy deviceId).
Qed.

(** ** Array callbacks that do not raise *)

Section Callbacks.
Variables (p : value num → result bool) (q : value num → bool).

Lemma find_index_pure l :
  Forall (λ w, p w = Ok (q w)) l →
  find_index p l = Ok (fst <$> list_find (λ w, q w = true) l).
Proof.
  induction 1 as [|w l Hw _ IH]; [done|].
  cbn [find_index find_first list_find]. rewrite Hw, IH.
  case_decide as Hq.
  - by rewrite Hq.
  - apply not_true_is_false in Hq. rewrite Hq.
    by destruct (list_find _ l) as [[i y]|].
Qed.

Lemma find_first_pure l :
  Forall (λ w, p w = Ok (q w)) l →
  find_first p l = Ok (default VUndef (snd <$> list_find (λ w, q w = true) l)).
Proof.
  induction 1 as [|w l Hw _ IH]; [done|].
  cbn [find_index find_first list_find]. rewrite Hw, IH.
  case_decide as Hq.
  - by rewrite Hq.
  - apply not_true_is_false in Hq. rewrite Hq.
    by destruct (list_find _ l) as [[i y]|].
Qed.

Lemma filter_m_pure l :
  Forall (λ w, p w = Ok (q w)) l →
  filter_m p l = Ok (List.filter q l).
Proof.
  induction 1 as [|w l Hw _ IH]; simpl; [done|].
  rewrite Hw, IH; simpl. by destruct (q w).
Qed.

End Callbacks.

(** ** Deleting locations by scope *)


(** ** Loading the data file *)

(** C5.  Loading a data file whose content is an object with a
    [locations] array (the single-tenant shape) yields a store with the one
    tenant ["default"], whose locations are that array and whose devices
    are empty; the file is left as it was. *)
Theorem legacy_file_is_migrated_on_load (jp : props num) locs x :
  oget jp "locations" = Some (VArr locs x) →
  readData (Some (Json (VObj jp))) =
    (VObj [("tenants",
            VObj [("default",
                   VObj [("locations", VArr locs x); ("devices", VArr [] [])])])],
     Some (Json (VObj jp))).
Proof. intros Hl. unfold readData. simpl. by rewrite Hl. Qed.

(** ** Tenants of an object-shaped store *)

Lemma oset_same ps k v : oget ps k = Some v → oset ps k v = ps.
Proof.
  induction ps as [|[k0 v0] r IH]; simpl; [done|].
  destruct (String.eqb k0 k) eqn:E.
  - apply String.eqb_eq in E as ->. by intros [= ->].
  - intros Hr. by rewrite IH.
Qed.

Lemma oset_oset ps k v w : oset (oset ps k v) k w = oset ps k w.
Proof.
  induction ps as [|[k0 v0] r IH]; simpl.
  - by rewrite String.eqb_refl.
  - destruct (String.eqb k0 k) eqn:E; simpl.
    + by rewrite String.eqb_refl.
    + by rewrite E, IH.
Qed.

Lemma truthy_readable v : truthy v = true → readable v.
Proof. by destruct v. Qed.

Lemma written_primitive v f w : is_ref v = false → readable v → set_prop v f w = Ok v.
Proof. by destruct v. Qed.

(** Assigning one of the two array fields never raises on a readable
    receiver. *)
Lemma set_prop_tenant_field v f w :
  readable v → f = "locations" ∨ f = "devices" → set_prop v f w = Ok (written v f w).
Proof.
  intros Hv Hf. unfold written. destruct v; try done.
  by destruct Hf as [-> | ->].
Qed.

Lemma set_inner_entry ts uid t f w :
  oget ts uid = Some t → readable t → f = "locations" ∨ f = "devices" →
  set_inner (VObj ts) uid f w = Ok (VObj (oset ts uid (written t f w))).
Proof.
  intros Ht Hr Hf. unfold set_inner. rewrite get_prop_obj, Ht. simpl.
  rewrite (set_prop_tenant_field _ _ _ Hr Hf). simpl.
  destruct (is_ref t) eqn:Eref; simpl; [done|].
  unfold written. rewrite (written_primitive _ _ _ Eref Hr).
  by rewrite (oset_same _ _ _ Ht).
Qed.

Lemma ensure_array_readable t f : readable t → readable (ensure_array t f).
Proof.
  unfold ensure_array, written. intros Hr. destruct (is_array _); [done|].
  destruct t; try done; simpl.
  destruct (String.eqb f "length"); [by destruct (num_to_length _)|].
  destruct (array_index f); [|done]. by destruct (_ <? _)%nat.
Qed.

Lemma ensure_array_entry ts uid t f :
  oget ts uid = Some t → readable t → f = "locations" ∨ f = "devices" →
  (if negb (is_array (field t f)) then set_inner (VObj ts) uid f (VArr [] [])
   else Ok (VObj ts)) = Ok (VObj (oset ts uid (ensure_array t f))).
Proof.
  intros Ht Hr Hf. unfold ensure_array. destruct (is_array (field t f)); simpl.
  - by rewrite (oset_same _ _ _ Ht).
  - by apply set_inner_entry.
Qed.

(** [getTenant] on a store whose [tenants] is an object: the entry of
    [uid] becomes [normalized] and is returned; nothing else changes. *)
Lemma tenant_of_store dp ts uid :
  oget dp "tenants" = Some (VObj ts) →
  getTenant (VObj dp) uid =
    let t := normalized (default VUndef (oget ts uid)) in
    Ok (VObj (oset dp "tenants" (VObj (oset ts uid t))), t).
Proof.
  intros Hts. unfold getTenant, normalized. rewrite get_prop_obj, Hts. simpl.
  set (t0 := default VUndef (oget ts uid)).
  set (t1 := if truthy t0 then t0 else fresh_tenant).
  assert (readable t1) as Hr1.
  { unfold t1. destruct (truthy t0) eqn:E; [by apply truthy_readable|done]. }
  assert ((if negb (truthy t0) then Ok (VObj (oset ts uid fresh_tenant)) else Ok (VObj ts))
          = Ok (VObj (oset ts uid t1))) as ->.
  { unfold t1. destruct (truthy t0) eqn:E; simpl; [|done].
    unfold t0 in *. destruct (oget ts uid) as [t|] eqn:Eg; [|done].
    simpl. by rewrite (oset_same _ _ _ Eg). }
  simpl. rewrite oget_oset_eq. simpl.
  rewrite (get_prop_field _ _ Hr1). simpl.
  rewrite (ensure_array_entry _ uid t1) by (try apply oget_oset_eq; auto).
  simpl. rewrite oset_oset, oget_oset_eq. simpl.
  set (t2 := ensure_array t1 "locations").
  assert (readable t2) as Hr2 by by apply ensure_array_readable.
  rewrite (get_prop_field _ _ Hr2). simpl.
  rewrite (ensure_array_entry _ uid t2) by (try apply oget_oset_eq; auto).
  simpl. by rewrite oset_oset, oget_oset_eq.
Qed.

(** The part of a request between loading and saving, on a store whose
    [tenants] is an object: the route runs on the normalised entry of the
    caller, and a save replaces that entry alone. *)
Lemma process_object_store e uid req dp ts :
  oget dp "tenants" = Some (VObj ts) →
  process e uid req (VObj dp) =
    let t := normalized (default VUndef (oget ts uid)) in
    '(r, c) ← route e uid t req;
    match c with
    | Keep => Ok (r, None)
    | Save t' =>
        Ok (r, Some (VObj (oset dp "tenants"
                             (VObj (oset ts uid (if is_ref t then t' else t))))))
    end.
Proof.
  intros Hts. unfold process. rewrite (tenant_of_store _ _ _ Hts). simpl.
  destruct (route e uid _ req) as [[r [|t']]|x]; simpl; try done.
  unfold put_tenant. rewrite get_prop_obj, oget_oset_eq. simpl.
  rewrite oget_oset_eq. simpl.
  destruct (is_ref _); simpl; by rewrite !oset_oset.
Qed.

(** ** Upserting a location *)

(** The record that POST /localizacao builds from an object payload [pp]:
    the generated id when the payload has none, then the caller's tenant. *)
Lemma upsert_location_run e uid tp locs x body payload pp :
  oget tp "locations" = Some (VArr locs x) →
  Forall readable locs →
  parseBody body = Ok payload →
  js_or payload (VObj []) = VObj pp →
  let loc := incoming e uid pp in
  let id := default VUndef (oget loc "id") in
  upsert_location e uid (VObj tp) body =
    match list_find (λ o, strict_eq (field o "id") id = true) locs with
    | Some (i, old) =>
        let merged :=
          VObj (oset (assign (assign [] (own_props old)) loc)
                     "updatedAt" (VStr (clock e 0))) in
        Ok (Reply 200 merged,
            Save (VObj (oset tp "locations" (VArr (<[i := merged]> locs) x))))
    | None =>
        let created :=
          VObj (if truthy (default VUndef (oget loc "createdAt")) then loc
                else oset loc "createdAt" (VStr (clock e 0))) in
        Ok (Reply 201 created,
            Save (VObj (oset tp "locations" (VArr (locs ++ [created]) x))))
    end.
Proof.
  intros Hl Hr Hb Hp loc id. unfold upsert_location.
  rewrite Hb. simpl. rewrite Hp. simpl.
  assert ((if negb (truthy (default VUndef (oget pp "id")))
           then Ok (VObj (oset pp "id" (VStr (genId e)))) else Ok (VObj pp))
          = Ok (VObj (if truthy (default VUndef (oget pp "id")) then pp
                      else oset pp "id" (VStr (genId e))))) as ->
    by by destruct (truthy _).
  simpl. rewrite Hl. simpl. fold (incoming e uid pp). fold loc. fold id.
  rewrite (find_index_pure _ (λ o, strict_eq (field o "id") id)).
  2:{ eapply Forall_impl; [exact Hr|]. intros o Ho. simpl.
      by rewrite (get_prop_field _ _ Ho). }
  simpl. destruct (list_find _ locs) as [[i old]|] eqn:Ef; simpl.
  - apply list_find_Some in Ef as (Hi & _ & _). by rewrite Hi.
  - unfold loc, incoming. by destruct (truthy (default VUndef (oget _ "createdAt"))).
Qed.

Lemma oset_keys_distinct ps k v : NoDup ps.*1 → NoDup (oset ps k v).*1.
Proof.
  induction ps as [|[k0 v0] r IH]; simpl.
  - intros _. apply NoDup_singleton.
  - rewrite NoDup_cons. intros [Hk0 Hr].
    destruct (String.eqb k0 k) eqn:E; simpl.
    + apply String.eqb_eq in E as ->. by apply NoDup_cons.
    + apply NoDup_cons. split; [|by apply IH].
      apply oget_None_keys. rewrite oget_oset_ne.
      * by apply oget_None_keys.
      * intros ->. by rewrite String.eqb_refl in E.
Qed.

Lemma incoming_distinct e uid pp : NoDup pp.*1 → NoDup (incoming e uid pp).*1.
Proof.
  intros Hpp. unfold incoming. apply oset_keys_distinct.
  destruct (truthy _); [done|]. by apply oset_keys_distinct.
Qed.

(** The fields of the record built from the payload. *)
Lemma oget_incoming e uid pp k :
  oget (incoming e uid pp) k =
    if String.eqb k "uid" then Some (VStr uid)
    else if String.eqb k "id" then
      Some (if truthy (default VUndef (oget pp "id")) then default VUndef (oget pp "id")
            else VStr (genId e))
    else oget pp k.
Proof.
  unfold incoming. rewrite oget_oset, (String.eqb_sym "uid" k).
  destruct (String.eqb k "uid") eqn:Eu; [done|].
  destruct (truthy (default VUndef (oget pp "id"))) eqn:Et.
  - destruct (String.eqb k "id") eqn:Ei; [|done].
    apply String.eqb_eq in Ei as ->. by destruct (oget pp "id").
  - rewrite oget_oset, (String.eqb_sym "id" k). by destruct (String.eqb k "id").
Qed.


(** Every object payload is stored: as a merge over the first stored
    location with its id, or as a new last location. *)
Lemma upsert_location_stores e uid tp locs x body payload pp :
  oget tp "locations" = Some (VArr locs x) →
  Forall record locs →
  parseBody body = Ok payload →
  js_or payload (VObj []) = VObj pp →
  NoDup pp.*1 →
  (∃ i old merged,
     locs !! i = Some (VObj old)
     ∧ upsert_location e uid (VObj tp) body =
         Ok (Reply 200 (VObj merged),
             Save (VObj (oset tp "locations" (VArr (<[i := VObj merged]> locs) x))))
     ∧ ∀ k, k ≠ "updatedAt" →
         oget merged k = match oget (incoming e uid pp) k with
                         | Some v => Some v
                         | None => oget old k
                         end)
  ∨ (∃ created,
       upsert_location e uid (VObj tp) body =
         Ok (Reply 201 (VObj created),
             Save (VObj (oset tp "locations" (VArr (locs ++ [VObj created]) x))))
       ∧ ∀ k, k ≠ "createdAt" → oget created k = oget (incoming e uid pp) k).
Proof.
  intros Hl Hrec Hb Hp Hnd.
  assert (Forall readable locs) as Hr
    by (eapply Forall_impl; [exact Hrec|apply record_readable]).
  pose proof (upsert_location_run e uid tp locs x body payload pp Hl Hr Hb Hp) as Hrun.
  simpl in Hrun.
  destruct (list_find _ locs) as [[i o]|] eqn:Ef.
  - left. apply list_find_Some in Ef as (Hi & _ & _).
    assert (record o) as (old & -> & Hold).
    { rewrite Forall_forall in Hrec. apply Hrec. by eapply list_elem_of_lookup_2. }
    exists i, old. eexists. split_and!; [done|exact Hrun|].
    intros k Hk. rewrite oget_oset_ne by done. simpl.
    rewrite (assign_nil_distinct _ Hold).
    by rewrite oget_assign by by apply incoming_distinct.
  - right. eexists. split; [exact Hrun|].
    intros k Hk. destruct (truthy _); [done|]. by rewrite oget_oset_ne.
Qed.

(** C4 (as amended).  POST /localizacao checks no field of its payload:
    every object payload is stored and answered with 201 (a new last
    location) or 200 (a merge over a stored one), whether or not it has a
    petId.  A created location has the petId, latitude and longitude of
    the payload, absent when the payload omits them and of whatever type
    it supplies; a merged one has those of the payload where it supplies
    them and those of the stored location elsewhere. *)
Theorem upsert_location_does_not_validate e uid tp locs x body payload pp :
  oget tp "locations" = Some (VArr locs x) →
  Forall record locs →
  parseBody body = Ok payload →
  js_or payload (VObj []) = VObj pp →
  NoDup pp.*1 →
  (∃ created,
     upsert_location e uid (VObj tp) body =
       Ok (Reply 201 (VObj created),
           Save (VObj (oset tp "locations" (VArr (locs ++ [VObj created]) x))))
     ∧ ∀ k, k ∈ ["petId"; "latitude"; "longitude"] → oget created k = oget pp k)
  ∨ (∃ i old merged,
       locs !! i = Some (VObj old)
       ∧ upsert_location e uid (VObj tp) body =
           Ok (Reply 200 (VObj merged),
               Save (VObj (oset tp "locations" (VArr (<[i := VObj merged]> locs) x))))
       ∧ ∀ k, k ∈ ["petId"; "latitude"; "longitude"] →
           oget merged k = match oget pp k with
                           | Some v => Some v
                           | None => oget old k
                           end).
Proof.
  intros Hl Hrec Hb Hp Hnd.
  assert (∀ k, k ∈ ["petId"; "latitude"; "longitude"] →
            k ≠ "updatedAt" ∧ k ≠ "createdAt" ∧ oget (incoming e uid pp) k = oget pp k) as Hk.
  { intros k Hk. rewrite oget_incoming.
    repeat (apply elem_of_cons in Hk as [-> | Hk]; [done|]). by apply elem_of_nil in Hk. }
  destruct (upsert_location_stores e uid tp locs x body payload pp Hl Hrec Hb Hp Hnd)
    as [(i & old & merged & Hi & Hrun & Hf) | (created & Hrun & Hf)].
  - right. exists i, old, merged. split_and!; [done|done|].
    intros k Hin. destruct (Hk k Hin) as (? & ? & Hpp). by rewrite Hf, Hpp.
  - left. exists created. split; [done|].
    intros k Hin. destruct (Hk k Hin) as (? & ? & Hpp). by rewrite Hf, Hpp.
Qed.

(** ** Tenant isolation *)

Lemma entry_saved dp ts uid t :
  entry (VObj (oset dp "tenants" (VObj (oset ts uid t)))) uid = t.
Proof.
  unfold entry. rewrite !field_obj, oget_oset_eq. simpl.
  by rewrite field_obj, oget_oset_eq.
Qed.

(** ** Normalising the tenant entry *)

Lemma ensure_array_obj tp f :
  ensure_array (VObj tp) f =
    VObj (if is_array (default VUndef (oget tp f)) then tp else oset tp f (VArr [] [])).
Proof. unfold ensure_array. rewrite field_obj. by destruct (is_array _). Qed.


(** ** Resolving the owner of a device *)

Lemma js_or_readable v ps : readable (js_or v (VObj ps)).
Proof. unfold js_or. destruct (truthy v) eqn:E; [by apply truthy_readable|done]. Qed.

(** [resolvePetIdByIdentifier] returns the [petId] of the first device, in
    store order, that the identifiers match, and [undefined] when none
    does. *)
Lemma resolve_first_match tenant devs x code deviceId :
  get_prop tenant "devices" = Ok (VArr devs x) →
  Forall readable devs →
  resolvePetIdByIdentifier tenant code deviceId =
    Ok (match list_find (λ d, matches code deviceId d = true) devs with
        | Some (_, d) => field d "petId"
        | None => VUndef
        end).
Proof.
  intros Hd Hr. unfold resolvePetIdByIdentifier. rewrite Hd. simpl.
  rewrite (find_first_pure _ (matches code deviceId)).
  2:{ eapply Forall_impl; [exact Hr|]. intros d. apply match_device_matches. }
  simpl. destruct (list_find _ devs) as [[i d]|] eqn:Ef; simpl; [|done].
  apply list_find_Some in Ef as (Hi & _ & _).
  assert (readable d) as Hrd.
  { rewrite Forall_forall in Hr. apply Hr. by eapply list_elem_of_lookup_2. }
  unfold opt_get. rewrite Hrd. by apply get_prop_field.
Qed.

Lemma readData_file (f : file num) : (readData f).2 = ensureDataFile f.
Proof. done. Qed.

(** A handler that keeps the store leaves the data file as loading left
    it. *)
Lemma server_keep e uid req (f : file num) data1 tenant r :
  getTenant (readData f).1 uid = Ok (data1, tenant) →
  route e uid tenant req = Ok (r, Keep) →
  server e uid req f = (sendJson r, ensureDataFile f).
Proof.
  intros Ht Hr. unfold server, process.
  destruct (readData f) as [data f1] eqn:Hrd.
  assert (f1 = ensureDataFile f) as -> by (by rewrite <-readData_file, Hrd).
  simpl in *. rewrite Ht. simpl. by rewrite Hr.
Qed.

(** A handler that saves has the store, with its tenant, written to the
    data file. *)
Lemma server_save e uid req (f : file num) data1 tenant r tenant' data2 :
  getTenant (readData f).1 uid = Ok (data1, tenant) →
  route e uid tenant req = Ok (r, Save tenant') →
  put_tenant data1 uid tenant' = Ok data2 →
  server e uid req f = (sendJson r, Some (Json (to_json data2))).
Proof.
  intros Ht Hr Hp. unfold server, process.
  destruct (readData f) as [data f1]. simpl in *.
  rewrite Ht. simpl. rewrite Hr. simpl. by rewrite Hp.
Qed.

(** ** Ingesting a device position: the failures *)

(** C2.  POST /locations/ingest with a body that parses, under a tenant
    obtained from the loaded store.  A code or deviceId is supplied when
    it is truthy.  If neither is, the answer is 400 with the message
    "code or deviceId required" (ValidationError).  If one is and no
    device of the tenant matches, or the first device that matches has a
    null, absent (or otherwise falsy) petId, the answer is 404
    (NotFoundError).  In each case nothing is saved: the data file is as
    loading left it, that is unchanged when it existed. *)
Theorem ingest_failures_store_nothing e uid (f : file num) body payload data1 tenant :
  parseBody body = Ok payload →
  getTenant (readData f).1 uid = Ok (data1, tenant) →
  let p := js_or payload (VObj []) in
  let code := field p "code" in
  let deviceId := field p "deviceId" in
  (truthy code = false → truthy deviceId = false →
     server e uid (Ingest body) f =
       (Reply 400 (obj_error "code or deviceId required"), ensureDataFile f))
  ∧ (truthy code = true ∨ truthy deviceId = true →
     ∀ devs x,
       get_prop tenant "devices" = Ok (VArr devs x) →
       Forall readable devs →
       Forall (λ d, matches code deviceId d = false) devs
       ∨ (∃ i d, devs !! i = Some d ∧ matches code deviceId d = true
                 ∧ (∀ j d', devs !! j = Some d' → j < i → matches code deviceId d' = false)
                 ∧ truthy (field d "petId") = false) →
       server e uid (Ingest body) f =
         (Reply 404 (obj_error "Pet not found for given identifier"), ensureDataFile f))
  ∧ (∀ t, f = Some t → ensureDataFile f = f).
Proof.
  intros Hb Ht p code deviceId.
  assert (readable p) as Hp by apply js_or_readable.
  split_and!.
  - intros Hc Hd.
    rewrite (server_keep e uid _ f data1 tenant
               (Reply 400 (obj_error "code or deviceId required")) Ht); [done|].
    simpl. unfold ingest. rewrite Hb. simpl. fold p.
    rewrite !(get_prop_field p) by done. simpl. fold code deviceId.
    by rewrite Hc, Hd.
  - intros Hsome devs x Hdevs Hr Hcase.
    rewrite (server_keep e uid _ f data1 tenant
               (Reply 404 (obj_error "Pet not found for given identifier")) Ht); [done|].
    simpl. unfold ingest. rewrite Hb. simpl. fold p.
    rewrite !(get_prop_field p) by done. simpl. fold code deviceId.
    assert (negb (truthy code) && negb (truthy deviceId) = false) as ->
      by (destruct Hsome as [-> | ->]; by rewrite ?andb_false_r).
    rewrite (resolve_first_match _ _ _ _ _ Hdevs Hr). simpl.
    destruct Hcase as [Hnone | (i & d & Hi & Hm & Hfirst & Hpet)].
    + assert (list_find (λ d, matches code deviceId d = true) devs = None) as ->.
      { apply list_find_None. eapply Forall_impl; [exact Hnone|].
        intros d Hd. simpl in Hd. by rewrite Hd. }
      done.
    + assert (list_find (λ d, matches code deviceId d = true) devs = Some (i, d)) as ->.
      { apply list_find_Some. split_and!; [done|done|].
        intros j d' Hj Hlt. by rewrite (Hfirst j d' Hj Hlt). }
      by rewrite Hpet.
  - by intros t ->.
Qed.

(** ** Ingesting a device position: the location created *)



(** ** Registering and detaching a device *)

(** [upsertDevice] on a tenant whose devices are [devs]: the first device
    that the identifiers of the payload match is replaced by the merge,
    which is returned; when there is none a record with [createdAt] is
    appended and the record without it is returned. *)
Lemma upsertDevice_run e tp devs x payload :
  oget tp "devices" = Some (VArr devs x) →
  Forall readable devs →
  readable payload →
  let code := field payload "code" in
  let deviceId := field payload "deviceId" in
  let dev : props num :=
    [("petId", field payload "petId"); ("code", code); ("deviceId", deviceId);
     ("name", field payload "name"); ("updatedAt", VStr (clock e 0))] in
  upsertDevice e (VObj tp) payload =
    match list_find (λ d, matches code deviceId d = true) devs with
    | Some (i, old) =>
        let merged := VObj (assign (assign [] (own_props old)) dev) in
        Ok (VObj (oset tp "devices" (VArr (<[i := merged]> devs) x)), merged)
    | None =>
        let created := VObj (dev ++ [("createdAt", VStr (clock e 1))]) in
        Ok (VObj (oset tp "devices" (VArr (devs ++ [created]) x)), VObj dev)
    end.
Proof.
  intros Hd Hr Hp code deviceId dev. unfold upsertDevice.
  rewrite !(get_prop_field payload) by done. simpl. rewrite Hd. simpl.
  fold code deviceId.
  rewrite (find_index_pure _ (matches code deviceId)).
  2:{ eapply Forall_impl; [exact Hr|]. intros d. apply match_device_matches. }
  simpl. destruct (list_find _ devs) as [[i old]|] eqn:Ef; simpl; [|done].
  apply list_find_Some in Ef as (Hi & _ & _). by rewrite Hi.
Qed.

(** What [upsertDevice] stores and returns.  A creation stores a record
    with [createdAt] and returns one without it.  An update stores, and
    returns, the stored record with [petId], [code], [deviceId] and [name]
    replaced by those of the payload, [undefined] where the payload has
    none, and with [updatedAt] refreshed; the other fields, [createdAt]
    among them, are kept. *)
Lemma upsertDevice_stored_and_returned e tp devs x payload :
  oget tp "devices" = Some (VArr devs x) →
  Forall record devs →
  readable payload →
  (∃ stored returned,
     upsertDevice e (VObj tp) payload =
       Ok (VObj (oset tp "devices" (VArr (devs ++ [VObj stored]) x)), VObj returned)
     ∧ oget stored "createdAt" = Some (VStr (clock e 1))
     ∧ oget returned "createdAt" = None)
  ∨ (∃ i old merged,
       devs !! i = Some (VObj old)
       ∧ upsertDevice e (VObj tp) payload =
           Ok (VObj (oset tp "devices" (VArr (<[i := VObj merged]> devs) x)), VObj merged)
       ∧ ∀ k, oget merged k =
           if String.eqb k "updatedAt" then Some (VStr (clock e 0))
           else if bool_decide (k ∈ ["petId"; "code"; "deviceId"; "name"])
                then Some (field payload k)
                else oget old k).
Proof.
  intros Hd Hrec Hp.
  assert (Forall readable devs) as Hr
    by (eapply Forall_impl; [exact Hrec|apply record_readable]).
  pose proof (upsertDevice_run e tp devs x payload Hd Hr Hp) as Hrun.
  cbv zeta in Hrun.
  destruct (list_find _ devs) as [[i o]|] eqn:Ef.
  - right. apply list_find_Some in Ef as (Hi & _ & _).
    assert (record o) as (old & -> & Hold).
    { rewrite Forall_forall in Hrec. apply Hrec. by eapply list_elem_of_lookup_2. }
    exists i, old. eexists. split_and!; [done|exact Hrun|].
    intros k. cbn [own_props]. rewrite (assign_nil_distinct _ Hold).
    rewrite oget_assign by (apply (bool_decide_unpack _); by vm_compute).
    destruct (String.eqb k "updatedAt") eqn:E0.
    { by apply String.eqb_eq in E0 as ->. }
    destruct (bool_decide (k ∈ ["petId"; "code"; "deviceId"; "name"])) eqn:E1.
    { apply bool_decide_eq_true in E1.
      repeat (apply elem_of_cons in E1 as [-> | E1]; [done|]).
      by apply elem_of_nil in E1. }
    apply bool_decide_eq_false in E1. apply String.eqb_neq in E0.
    rewrite !not_elem_of_cons in E1. destruct E1 as (? & ? & ? & ? & _).
    assert (oget [("petId", field payload "petId"); ("code", field payload "code");
                  ("deviceId", field payload "deviceId"); ("name", field payload "name");
                  ("updatedAt", VStr (clock e 0))] k = None) as ->; [|done].
    apply oget_None_keys. simpl. rewrite !not_elem_of_cons.
    split_and!; try done. apply not_elem_of_nil.
  - left. eexists _, _. split_and!; [exact Hrun|done|done].
Qed.

Lemma matches_code c dv d :
  c ≠ "" → truthy dv = false →
  matches (VStr c) dv d = strict_eq (field d "code") (VStr c).
Proof.
  intros Hc Hdv. unfold matches. rewrite Hdv. simpl.
  assert (String.eqb c "" = false) as -> by by apply String.eqb_neq.
  simpl. by rewrite orb_false_r.
Qed.

Lemma matches_false_code c dv d :
  c ≠ "" → matches (VStr c) dv d = false → strict_eq (field d "code") (VStr c) = false.
Proof.
  intros Hc. unfold matches. simpl.
  assert (String.eqb c "" = false) as -> by by apply String.eqb_neq.
  simpl. by intros [? _]%orb_false_iff.
Qed.

Lemma first_with_code_find c l i d dv :
  c ≠ "" → truthy dv = false → first_with_code c l i d →
  list_find (λ d, matches (VStr c) dv d = true) l = Some (i, d).
Proof.
  intros Hc Hdv (Hi & Hcode & Hfirst). apply list_find_Some. split_and!; [done| |].
  - by rewrite matches_code.
  - intros j d' Hj Hlt. rewrite matches_code by done. by rewrite (Hfirst j d' Hj Hlt).
Qed.

Lemma first_with_code_replace c l i d d' :
  first_with_code c l i d → strict_eq (field d' "code") (VStr c) = true →
  first_with_code c (<[i := d']> l) i d'.
Proof.
  intros (Hi & _ & Hfirst) Hcode. split_and!; [|done|].
  - apply list_lookup_insert_eq. by eapply lookup_lt_Some.
  - intros j d'' Hj Hlt. rewrite list_lookup_insert_ne in Hj by lia. by eapply Hfirst.
Qed.

Lemma Forall_readable_insert l i d :
  Forall readable l → readable d → Forall (readable (num:=num)) (<[i := d]> l).
Proof. intros. by apply Forall_insert. Qed.

(** After a registration with code [c], the registered record is the
    first device with that code. *)
Lemma upsertDevice_first_with_code e tp devs x payload c :
  oget tp "devices" = Some (VArr devs x) →
  Forall readable devs →
  readable payload →
  field payload "code" = VStr c → c ≠ "" →
  ∃ devs' i stored returned,
    upsertDevice e (VObj tp) payload =
      Ok (VObj (oset tp "devices" (VArr devs' x)), VObj returned)
    ∧ first_with_code c devs' i (VObj stored)
    ∧ Forall readable devs'
    ∧ oget stored "petId" = Some (field payload "petId").
Proof.
  intros Hd Hr Hp Hcode Hc.
  pose proof (upsertDevice_run e tp devs x payload Hd Hr Hp) as Hrun.
  simpl in Hrun. rewrite Hcode in Hrun.
  destruct (list_find _ devs) as [[i old]|] eqn:Ef.
  - apply list_find_Some in Ef as (Hi & Hm & Hfirst).
    eexists _, i, _, _. split; [exact Hrun|]. split_and!.
    + split_and!.
      * apply list_lookup_insert_eq. by eapply lookup_lt_Some.
      * rewrite field_obj, !oget_oset. simpl. by rewrite String.eqb_refl.
      * intros j d' Hj Hlt. rewrite list_lookup_insert_ne in Hj by lia.
        eapply matches_false_code; [done|].
        apply not_true_is_false. by eapply Hfirst.
    + by apply Forall_readable_insert.
    + by rewrite !oget_oset.
  - apply list_find_None in Ef.
    eexists _, (length devs), _, _. split; [exact Hrun|]. split_and!.
    + split_and!.
      * by rewrite lookup_app_r, Nat.sub_diag by lia.
      * simpl. by rewrite String.eqb_refl.
      * intros j d' Hj Hlt. rewrite lookup_app_l in Hj by done.
        eapply matches_false_code; [done|]. apply not_true_is_false.
        rewrite Forall_forall in Ef. eapply Ef. by eapply list_elem_of_lookup_2.
    + apply Forall_app. split; [done|]. by repeat constructor.
    + done.
Qed.

Lemma field_truthy_readable v k : truthy (field v k) = true → readable v.
Proof. by destruct v. Qed.


(** Resolution by code alone on a tenant whose first device with that
    code is known. *)
Lemma resolve_by_code tp devs x c i d :
  oget tp "devices" = Some (VArr devs x) →
  Forall readable devs →
  c ≠ "" →
  first_with_code c devs i d →
  resolvePetIdByIdentifier (VObj tp) (VStr c) VUndef = Ok (field d "petId").
Proof.
  intros Hd Hr Hc Hfirst.
  rewrite (resolve_first_match _ devs x) by (by rewrite ?get_prop_obj, ?Hd).
  by rewrite (first_with_code_find c devs i d).
Qed.

(** C6.  Under a tenant whose devices are [devs]: a registration with a
    petId [p] and a code [c] succeeds, and afterwards resolving the code
    [c] gives [p]; a detachment by the code [c] then succeeds, and
    afterwards resolving [c] gives null.  In general
    [resolvePetIdByIdentifier] gives the petId of the first device, in
    store order, that the code or the deviceId matches (and undefined when
    there is none). *)
Theorem device_resolution e e' tp devs x body payload c :
  oget tp "devices" = Some (VArr devs x) →
  Forall readable devs →
  parseBody body = Ok payload →
  truthy (field payload "petId") = true →
  field payload "code" = VStr c →
  c ≠ "" →
  (∃ r t1,
     register_device e (VObj tp) body = Ok (r, Save t1)
     ∧ status r = 201%nat
     ∧ resolvePetIdByIdentifier t1 (VStr c) VUndef = Ok (field payload "petId")
     ∧ ∃ r2 t2,
         detach_device e' t1 (Json (VObj [("code", VStr c)])) None None = Ok (r2, Save t2)
         ∧ status r2 = 200%nat
         ∧ resolvePetIdByIdentifier t2 (VStr c) VUndef = Ok VNull)
  ∧ (∀ tenant ds y code deviceId,
       get_prop tenant "devices" = Ok (VArr ds y) →
       Forall readable ds →
       resolvePetIdByIdentifier tenant code deviceId =
         Ok (match list_find (λ d, matches code deviceId d = true) ds with
             | Some (_, d) => field d "petId"
             | None => VUndef
             end)).
Proof.
  intros Hd Hr Hb Hpet Hcode Hc. split; [|apply resolve_first_match].
  assert (readable payload) as Hp by by eapply field_truthy_readable.
  assert (String.eqb c "" = false) as Hce by by apply String.eqb_neq.
  destruct (upsertDevice_first_with_code e tp devs x payload c Hd Hr Hp Hcode Hc)
    as (devs' & i & stored & returned & Hrun & Hfirst & Hr' & Hstored).
  eexists _, _. split_and!.
  - unfold register_device. rewrite Hb. simpl.
    rewrite !(opt_get_field payload). simpl.
    rewrite Hpet, Hcode. simpl. rewrite Hce. simpl.
    rewrite Hrun. simpl. done.
  - done.
  - rewrite (resolve_by_code _ devs' x c i (VObj stored)); try done.
    + by rewrite field_obj, Hstored.
    + apply oget_oset_eq.
  - destruct Hfirst as (Hi & Hcd & Hbefore).
    pose proof (conj Hi (conj Hcd Hbefore)) as Hfirst.
    set (detached := VObj (oset (oset stored "petId" VNull) "updatedAt" (VStr (clock e' 0)))).
    exists (Reply 200 detached),
           (VObj (oset (oset tp "devices" (VArr devs' x)) "devices"
                       (VArr (<[i := detached]> devs') x))).
    split_and!.
    + unfold detach_device, js_or. simpl. rewrite Hce. simpl.
      rewrite oget_oset_eq. simpl.
      rewrite (find_index_pure _ (matches (VStr c) VNull)).
      2:{ eapply Forall_impl; [exact Hr'|]. intros d. apply match_device_matches. }
      rewrite (first_with_code_find c devs' i (VObj stored)) by done.
      simpl. by rewrite Hce, Hi.
    + done.
    + rewrite (resolve_by_code _ (<[i := detached]> devs') x c i detached); try done.
      * unfold detached. rewrite field_obj, oget_oset_ne, oget_oset_eq; done.
      * apply oget_oset_eq.
      * by apply Forall_readable_insert.
      * apply (first_with_code_replace c devs' i (VObj stored)); [done|].
        unfold detached. rewrite field_obj, !oget_oset_ne by done.
        by rewrite field_obj in Hcd.
Qed.

(** ** What is written is what was loaded *)

Lemma json_props_cons k w ps :
  json_props ((k, w) :: ps) =
    match w with
    | VUndef => json_props ps
    | _ => (k, to_json w) :: json_props ps
    end.
Proof. by destruct w. Qed.

Lemma to_json_obj ps : to_json (VObj ps) = VObj (json_props ps).
Proof.
  simpl. f_equal. induction ps as [|[k w] r IH]; [done|].
  rewrite json_props_cons, IH. by destruct w.
Qed.

Lemma is_array_to_json v : is_array (to_json v) = is_array v.
Proof. destruct v; simpl; try done. by destruct (num_json n). Qed.

Lemma json_props_keys ps : (json_props ps).*1 ⊆ ps.*1.
Proof.
  induction ps as [|[k w] r IH]; [done|].
  rewrite json_props_cons.
  destruct w; simpl; try (by apply list_subseteq_skip); by apply list_subseteq_cons.
Qed.

(** A property is written unless it is [undefined]. *)
Lemma oget_json_props ps k :
  NoDup ps.*1 →
  oget (json_props ps) k =
    match oget ps k with
    | Some VUndef | None => None
    | Some w => Some (to_json w)
    end.
Proof.
  induction ps as [|[k0 w0] r IH]; [done|].
  intros Hnd. simpl in Hnd. apply NoDup_cons in Hnd as [Hk0 Hr]. specialize (IH Hr).
  rewrite json_props_cons. cbn [oget].
  destruct (String.eqb k0 k) eqn:E.
  - apply String.eqb_eq in E as ->.
    assert (oget (json_props r) k = None) as Hnone.
    { apply oget_None_keys. intros Hin. apply Hk0. by apply json_props_keys. }
    destruct w0; cbn [oget]; rewrite ?String.eqb_refl; done.
  - destruct w0; cbn [oget]; rewrite ?E; done.
Qed.

(** Writing a parsed value and reading it back gives the same value. *)
Lemma to_json_id v : json_value v → to_json v = v.
Proof.
  revert v. fix IH 2. intros v [| | n Hn | | l Hl | ps Hnd Hps]; try done.
  - simpl. by rewrite Hn.
  - simpl. f_equal. induction Hl as [|w l Hw _ IHl]; [done|].
    simpl. by rewrite (IH _ Hw), IHl.
  - rewrite to_json_obj. f_equal. clear Hnd.
    induction Hps as [|[k w] r Hw _ IHr]; [done|].
    rewrite json_props_cons, IHr. simpl in Hw.
    rewrite (IH _ Hw). by destruct Hw.
Qed.




Lemma json_value_keys ps : json_value (VObj ps) → NoDup ps.*1.
Proof. by inversion 1. Qed.

(** Reloading a saved store whose [tenants] is an object gives the store
    as it was written. *)
Lemma readData_saved dp ts :
  NoDup dp.*1 →
  is_array (default VUndef (oget dp "locations")) = false →
  oget dp "tenants" = Some (VObj ts) →
  (readData (Some (Json (to_json (VObj dp))))).1 = VObj (json_props dp).
Proof.
  intros Hnd Hloc Hts. unfold readData. rewrite to_json_obj. simpl.
  rewrite !(oget_json_props _ _ Hnd), Hts. rewrite to_json_obj. simpl.
  destruct (oget dp "locations") as [w|]; [|done].
  assert (is_array (to_json w) = false) as Hw by by rewrite is_array_to_json.
  destruct w; simpl in *; try done. by rewrite Hw.
Qed.



(** * Further properties of the server *)

(** ** What is saved, and when *)

Ltac bind_inv H :=
  repeat (first
    [ discriminate H
    | match type of H with
      | context [mbind _ ?m] => destruct m as [?|?] eqn:?; simpl in H
      | context [let '(_, _) := ?p in _] => destruct p as [? ?] eqn:?; simpl in H
      | context [if ?b then _ else _] => destruct b eqn:?; simpl in H
      | context [match ?x with _ => _ end] => destruct x eqn:?; simpl in H
      end ]).

(** A handler saves only with a reply of status 200 or 201. *)
Lemma route_save_status e uid tenant req r tenant' :
  route e uid tenant req = Ok (r, Save tenant') →
  status r = 200%nat ∨ status r = 201%nat.
Proof.
  intros Hr. destruct req; simpl in Hr.
  - unfold list_locations in Hr. bind_inv Hr.
  - unfold upsert_location in Hr. bind_inv Hr; injection Hr as <- _; auto.
  - unfold ingest in Hr. bind_inv Hr; injection Hr as <- _; auto.
  - unfold register_device in Hr. bind_inv Hr; injection Hr as <- _; auto.
  - unfold list_devices in Hr. bind_inv Hr.
  - unfold detach_device in Hr. bind_inv Hr; injection Hr as <- _; auto.
  - unfold delete_device in Hr. bind_inv Hr; injection Hr as <- _; auto.
  - unfold delete_location in Hr. bind_inv Hr; injection Hr as <- _; auto.
  - unfold delete_locations in Hr. bind_inv Hr; injection Hr as <- _; auto.
  - discriminate Hr.
Qed.

(** X1.  Whatever the request and the data file, a request that is not
    answered with status 200 or 201 leaves the data file as loading left
    it (created when it was missing, untouched otherwise): a refused,
    failed or unrouted request saves nothing, even after [getTenant] or a
    handler has changed the store in memory. *)
Theorem failed_request_saves_nothing e uid (req : request num) (f : file num) :
  status (server e uid req f).1 ≠ 200%nat →
  status (server e uid req f).1 ≠ 201%nat →
  (server e uid req f).2 = ensureDataFile f.
Proof.
  unfold server, process. destruct (readData f) as [data f1] eqn:Hrd.
  assert (f1 = ensureDataFile f) as -> by (by rewrite <-readData_file, Hrd).
  destruct (getTenant data uid) as [[data1 tenant]|]; simpl; [|done].
  destruct (route e uid tenant req) as [[r [|tenant']]|] eqn:Hr; simpl; try done.
  destruct (put_tenant data1 uid tenant'); simpl; [|done].
  intros H200 H201. by destruct (route_save_status _ _ _ _ _ _ Hr).
Qed.

(** X2.  The two listings and an unrouted request never write the data
    file, whatever it holds: the tenant entry that [getTenant] creates or
    repairs for them stays in memory. *)
Theorem reading_never_writes e uid (f : file num) petId :
  (server e uid (ListLocations petId) f).2 = ensureDataFile f
  ∧ (server e uid ListDevices f).2 = ensureDataFile f
  ∧ (server e uid NoRoute f).2 = ensureDataFile f.
Proof.
  assert (∀ req, (∀ t r t', route e uid t req ≠ Ok (r, Save t')) →
                 (server e uid req f).2 = ensureDataFile f) as Hkeep.
  { intros req Hreq. unfold server, process.
    destruct (readData f) as [data f1] eqn:Hrd.
    assert (f1 = ensureDataFile f) as -> by (by rewrite <-readData_file, Hrd).
    destruct (getTenant data uid) as [[data1 tenant]|]; simpl; [|done].
    destruct (route e uid tenant req) as [[r [|tenant']]|] eqn:Hr; simpl; try done.
    by destruct (Hreq _ _ _ Hr). }
  split_and!; apply Hkeep; intros t r t' Hr; simpl in Hr.
  - unfold list_locations in Hr. bind_inv Hr.
  - unfold list_devices in Hr. bind_inv Hr.
  - discriminate Hr.
Qed.

(** ** Loading and saving *)

(** X3.  Whatever the data file holds (nothing, a blank or unparsable
    text, any JSON value), the store that [readData] returns is an object
    or an array whose [tenants] is an object or an array: [getTenant] can
    always read [data.tenants[uid]]. *)
Theorem loaded_store_has_tenants (f : file num) :
  is_ref (readData f).1 = true
  ∧ is_ref (field (readData f).1 "tenants") = true.
Proof.
  unfold readData.
  destruct f as [[| |j]|]; simpl; try done.
  destruct (negb (truthy j) || negb (typeof_object j)) eqn:E; simpl; [done|].
  destruct j as [| | | | |l x|jp]; simpl in E; rewrite ?orb_true_r in E; try done; simpl.
  - destruct (is_array (default VUndef (oget x "locations"))); simpl; [done|].
    destruct (negb (truthy (default VUndef (oget x "tenants")))
              || negb (typeof_object (default VUndef (oget x "tenants")))) eqn:Et; simpl.
    + unfold field. simpl. by rewrite oget_oset_eq.
    + unfold field. simpl.
      destruct (default VUndef (oget x "tenants")); simpl in Et;
        rewrite ?orb_true_r in Et; done.
  - destruct (is_array (default VUndef (oget jp "locations"))); simpl; [done|].
    destruct (negb (truthy (default VUndef (oget jp "tenants")))
              || negb (typeof_object (default VUndef (oget jp "tenants")))) eqn:Et; simpl.
    + by rewrite field_obj, oget_oset_eq.
    + rewrite field_obj.
      destruct (default VUndef (oget jp "tenants")); simpl in Et;
        rewrite ?orb_true_r in Et; done.
Qed.

(** From such a text [readData] recovers with the empty store, and leaves
    the file alone. *)
Lemma readData_recovers (c : text (value num)) :
  unrecoverable c → readData (Some c) = (empty_store, Some c).
Proof.
  unfold unrecoverable, readData. destruct c as [| |v]; try done.
  intros Hv. cbn [ensureDataFile parse_or_empty mbind result_bind]. by rewrite Hv.
Qed.

(** X4.  A data file that is blank, unparsable or holds a JSON value that
    is not an object is served as an empty store and is not repaired: a
    request gets the reply it would get on the file [{"tenants": {}}],
    and the file is left as it is unless the request saves, in which case
    it is overwritten with what would have been written over that empty
    store. *)
Theorem corrupted_file_is_served_as_empty e uid (req : request num) (c : text (value num)) :
  unrecoverable c →
  (server e uid req (Some c)).1 = (server e uid req (Some (Json empty_store))).1
  ∧ ((server e uid req (Some c)).2 = Some c
     ∧ (server e uid req (Some (Json empty_store))).2 = Some (Json empty_store)
     ∨ (server e uid req (Some c)).2 = (server e uid req (Some (Json empty_store))).2).
Proof.
  intros Hc. unfold server. rewrite (readData_recovers c Hc).
  assert (readData (Some (Json empty_store)) = (empty_store, Some (Json (empty_store : value num))))
    as -> by done.
  destruct (process e uid req empty_store) as [[r [d|]]|]; simpl; auto.
Qed.

(** X5.  Saving and loading again: a store that is a parsed JSON object
    with a [tenants] object and no [locations] array of its own is loaded
    back exactly as it was saved, whatever file was there before. *)
Theorem save_then_load dp ts (f : file num) :
  json_value (VObj dp) →
  oget dp "tenants" = Some (VObj ts) →
  is_array (default VUndef (oget dp "locations")) = false →
  readData (writeData (VObj dp) f) = (VObj dp, Some (Json (VObj dp))).
Proof.
  intros Hj Hts Hloc. unfold writeData.
  rewrite (to_json_id _ Hj).
  pose proof (readData_saved dp ts (json_value_keys _ Hj) Hloc Hts) as Hs.
  rewrite (to_json_id _ Hj) in Hs.
  pose proof (to_json_obj dp) as Ho. rewrite (to_json_id _ Hj) in Ho.
  rewrite <-Ho in Hs.
  by rewrite (surjective_pairing (readData _)), Hs, readData_file.
Qed.

(** ** Listing, deleting and upserting locations *)



Lemma Forall_filter_keeps (P : value num → Prop) q l :
  Forall P l → Forall P (List.filter q l).
Proof.
  induction 1 as [|o l Ho _ IH]; simpl; [done|].
  destruct (q o); [by constructor|done].
Qed.





(** The id under which POST /localizacao looks the payload up. *)
Lemma incoming_id e uid pp :
  oget (incoming e uid pp) "id" = Some (effective_id e pp).
Proof. by rewrite oget_incoming. Qed.


(** The two outcomes of POST /localizacao with an object payload, under a
    tenant whose locations are not null: the first location with the id
    looked up is replaced, or no location has it and one is appended. *)
Lemma upsert_location_outcome e uid tp locs x body payload pp :
  oget tp "locations" = Some (VArr locs x) →
  Forall readable locs →
  parseBody body = Ok payload →
  js_or payload (VObj []) = VObj pp →
  NoDup pp.*1 →
  (∃ i o merged,
     locs !! i = Some o
     ∧ strict_eq (field o "id") (effective_id e pp) = true
     ∧ upsert_location e uid (VObj tp) body =
         Ok (Reply 200 (VObj merged),
             Save (VObj (oset tp "locations" (VArr (<[i := VObj merged]> locs) x))))
     ∧ ∀ k v, k ≠ "updatedAt" → oget (incoming e uid pp) k = Some v →
              oget merged k = Some v)
  ∨ (Forall (λ o, strict_eq (field o "id") (effective_id e pp) = false) locs
     ∧ ∃ created,
         upsert_location e uid (VObj tp) body =
           Ok (Reply 201 (VObj created),
               Save (VObj (oset tp "locations" (VArr (locs ++ [VObj created]) x))))
         ∧ ∀ k, k ≠ "createdAt" → oget created k = oget (incoming e uid pp) k).
Proof.
  intros Hl Hr Hb Hp Hnd.
  pose proof (upsert_location_run e uid tp locs x body payload pp Hl Hr Hb Hp) as Hrun.
  simpl in Hrun. rewrite incoming_id in Hrun. simpl in Hrun.
  destruct (list_find _ locs) as [[i o]|] eqn:Ef.
  - left. apply list_find_Some in Ef as (Hi & Hhit & _).
    exists i, o. eexists. split_and!; [done|done|exact Hrun|].
    intros k v Hk Hv. rewrite oget_oset_ne by done.
    by rewrite oget_assign, Hv by by apply incoming_distinct.
  - right. apply list_find_None in Ef. split.
    + eapply Forall_impl; [exact Ef|]. intros o Ho. by apply not_true_is_false.
    + eexists. split; [exact Hrun|].
      intros k Hk. destruct (truthy _); [done|]. by rewrite oget_oset_ne.
Qed.


Lemma filter_length_all {A} (q : A → bool) (l : list A) :
  length (List.filter q l) = length l ↔ Forall (λ a, q a = true) l.
Proof.
  induction l as [|a l IH]; simpl; [by split|].
  pose proof (List.filter_length_le q l) as Hle.
  destruct (q a) eqn:E; simpl; split.
  - intros Hlen. constructor; [done|]. apply IH. lia.
  - intros Hall. apply Forall_cons in Hall as [_ Hall]. apply IH in Hall. lia.
  - lia.
  - intros Hall. apply Forall_cons in Hall as [Ha _]. congruence.
Qed.

Lemma filter_all {A} (q : A → bool) (l : list A) :
  Forall (λ a, q a = true) l → List.filter q l = l.
Proof.
  induction 1 as [|a l Ha _ IH]; simpl; [done|]. by rewrite Ha, IH.
Qed.

(** DELETE /localizacao/:id *)
Lemma delete_location_run tp locs x id :
  oget tp "locations" = Some (VArr locs x) →
  Forall readable locs →
  delete_location (VObj tp) id =
    let kept := List.filter (λ o, negb (strict_eq (field o "id") (VStr id))) locs in
    if (length kept =? length locs)%nat
    then Ok (Reply 404 (obj_error "Not found"), Keep)
    else Ok (Reply 200 (VObj [("ok", VBool true)]),
             Save (VObj (oset tp "locations" (VArr kept [])))).
Proof.
  intros Hl Hr. unfold delete_location. rewrite get_prop_obj, Hl. simpl.
  rewrite (filter_m_pure _ (λ o, negb (strict_eq (field o "id") (VStr id)))).
  - simpl. by destruct (_ =? _)%nat.
  - eapply Forall_impl; [exact Hr|]. intros o Ho. simpl.
    by rewrite (get_prop_field _ _ Ho).
Qed.

Lemma strict_eq_str v s : strict_eq v (VStr s) = true → v = VStr s.
Proof.
  destruct v; simpl; try done. intros Hs. by apply String.eqb_eq in Hs as ->.
Qed.

Lemma strict_eq_str_refl s : strict_eq (VStr s : value num) (VStr s) = true.
Proof. apply String.eqb_refl. Qed.

(** X9.  DELETE /localizacao/:id under a tenant whose locations are [locs]
    (none of them null).  When no location has the string [id] as its id,
    the answer is 404 and nothing is saved; so a location whose id is not a
    string cannot be deleted by this route.  Otherwise the answer is 200
    and the saved locations are those of [locs] with another id, every one
    with that id removed and the others kept in store order. *)
Theorem delete_location_by_id tp locs x id :
  oget tp "locations" = Some (VArr locs x) →
  Forall readable locs →
  (Forall (λ o, field o "id" ≠ VStr id) locs
   ∧ delete_location (VObj tp) id = Ok (Reply 404 (obj_error "Not found"), Keep))
  ∨ (Exists (λ o, field o "id" = VStr id) locs
     ∧ ∃ kept,
         delete_location (VObj tp) id =
           Ok (Reply 200 (VObj [("ok", VBool true)]),
               Save (VObj (oset tp "locations" (VArr kept []))))
         ∧ (∀ o, o ∈ kept ↔ o ∈ locs ∧ field o "id" ≠ VStr id)
         ∧ kept `sublist_of` locs
         ∧ (length kept < length locs)%nat).
Proof.
  intros Hl Hr. rewrite (delete_location_run tp locs x id Hl Hr). cbv zeta.
  set (q := λ o : value num, negb (strict_eq (field o "id") (VStr id))).
  assert (∀ o, q o = true ↔ field o "id" ≠ VStr id) as Hq.
  { intros o. unfold q. rewrite negb_true_iff. split.
    - intros Hne Heq. rewrite Heq, strict_eq_str_refl in Hne. done.
    - intros Hne. apply not_true_is_false. intros Heq.
      by apply strict_eq_str in Heq. }
  destruct (Nat.eqb_spec (length (List.filter q locs)) (length locs)) as [Hlen|Hlen].
  - left. split; [|done]. apply filter_length_all in Hlen.
    eapply Forall_impl; [exact Hlen|]. intros o. apply Hq.
  - right. split.
    + assert (¬ Forall (λ o, q o = true) locs) as Hnot
        by (by rewrite <-filter_length_all).
      apply not_Forall_Exists in Hnot; [|intros o; apply _].
      eapply Exists_impl; [exact Hnot|]. intros o Ho. simpl in Ho.
      apply not_true_is_false, negb_false_iff in Ho. by apply strict_eq_str.
    + eexists. split_and!; [done| | |].
      * intros o. by rewrite list_elem_of_In, List.filter_In, <-list_elem_of_In, Hq.
      * clear. induction locs as [|o l IH]; simpl; [done|].
        destruct (q o); [by apply sublist_skip|by apply sublist_cons].
      * pose proof (List.filter_length_le q locs). lia.
Qed.

(** X10.  A location created by POST /localizacao under an id no stored
    location has, when that id is a string (the payload's, or the
    generated one), is removed again by DELETE /localizacao/:id with that
    string: the saved locations are the former ones. *)
Theorem create_then_delete e uid tp locs x raw payload pp s :
  oget tp "locations" = Some (VArr locs x) →
  Forall readable locs →
  parseBody raw = Ok payload →
  js_or payload (VObj []) = VObj pp →
  NoDup pp.*1 →
  effective_id e pp = VStr s →
  Forall (λ o, field o "id" ≠ VStr s) locs →
  ∃ created tenant',
    upsert_location e uid (VObj tp) raw = Ok (Reply 201 created, Save tenant')
    ∧ field created "id" = VStr s
    ∧ delete_location tenant' s =
        Ok (Reply 200 (VObj [("ok", VBool true)]),
            Save (VObj (oset tp "locations" (VArr locs [])))).
Proof.
  intros Hl Hr Hb Hp Hnd Hid Hfresh.
  destruct (upsert_location_outcome e uid tp locs x raw payload pp Hl Hr Hb Hp Hnd)
    as [(i & o & merged & Hi & Hhit & _) | (_ & created & Hrun & Hf)].
  { rewrite Hid in Hhit. apply strict_eq_str in Hhit.
    by eapply Forall_lookup_1 in Hfresh. }
  assert (field (VObj created) "id" = VStr s) as Hcid.
  { by rewrite field_obj, (Hf "id" ltac:(done)), incoming_id, Hid. }
  eexists _, _. split_and!; [exact Hrun|done|].
  rewrite (delete_location_run _ (locs ++ [VObj created]) x s);
    [|apply oget_oset_eq|apply Forall_app; split; [done|by repeat constructor]].
  cbv zeta. rewrite List.filter_app. simpl.
  rewrite Hcid, strict_eq_str_refl. simpl. rewrite app_nil_r.
  rewrite filter_all.
  - rewrite length_app. simpl.
    destruct (Nat.eqb_spec (length locs) (length locs + 1)) as [?|_]; [lia|].
    by rewrite oset_oset.
  - eapply Forall_impl; [exact Hfresh|]. intros o Ho. simpl.
    apply negb_true_iff, not_true_is_false. intros Heq.
    by apply strict_eq_str in Heq.
Qed.

(** X11.  POST /localizacao keeps the ids of the stored locations distinct
    strings: when they are so before, and the id looked up is a string
    (the payload's, or the generated one), they are so after, and the
    stored locations are one more (201) or as many as before (200). *)
Theorem upsert_keeps_ids_distinct e uid tp locs x raw payload pp s :
  oget tp "locations" = Some (VArr locs x) →
  Forall readable locs →
  parseBody raw = Ok payload →
  js_or payload (VObj []) = VObj pp →
  NoDup pp.*1 →
  effective_id e pp = VStr s →
  Forall (λ o, ∃ t, field o "id" = VStr t) locs →
  NoDup ((λ o, field o "id") <$> locs) →
  ∃ r locs',
    upsert_location e uid (VObj tp) raw =
      Ok (r, Save (VObj (oset tp "locations" (VArr locs' x))))
    ∧ Forall (λ o, ∃ t, field o "id" = VStr t) locs'
    ∧ NoDup ((λ o, field o "id") <$> locs')
    ∧ (status r = 201%nat ∧ length locs' = S (length locs)
       ∨ status r = 200%nat ∧ length locs' = length locs).
Proof.
  intros Hl Hr Hb Hp Hnd Hid Hstr Hdis.
  destruct (upsert_location_outcome e uid tp locs x raw payload pp Hl Hr Hb Hp Hnd)
    as [(i & o & merged & Hi & Hhit & Hrun & Hf) | (Hmiss & created & Hrun & Hf)].
  - assert (field (VObj merged) "id" = VStr s) as Hmid.
    { by rewrite field_obj, (Hf "id" _ ltac:(done) (incoming_id e uid pp)), Hid. }
    rewrite Hid in Hhit. apply strict_eq_str in Hhit.
    eexists _, _. split_and!; [exact Hrun| | |].
    + apply Forall_insert; [done|by eexists].
    + rewrite list_fmap_insert, Hmid, <-Hhit, list_insert_id; [done|].
      by rewrite list_lookup_fmap, Hi.
    + right. by rewrite length_insert.
  - assert (field (VObj created) "id" = VStr s) as Hcid.
    { by rewrite field_obj, (Hf "id" ltac:(done)), incoming_id, Hid. }
    eexists _, _. split_and!; [exact Hrun| | |].
    + apply Forall_app. split; [done|]. constructor; [by eexists|done].
    + rewrite fmap_app. apply NoDup_app. split_and!; [done| |].
      * intros v Hv Hin. simpl in Hin. apply list_elem_of_singleton in Hin as ->.
        apply list_elem_of_fmap in Hv as (o & Ho & Hin).
        eapply Forall_forall in Hmiss; [|exact Hin]. simpl in Hmiss.
        rewrite Hid, <-Ho, Hcid, strict_eq_str_refl in Hmiss. done.
      * simpl. apply NoDup_singleton.
    + left. rewrite length_app. simpl. split; [done|lia].
Qed.

(** X12.  Sending the same body to POST /localizacao again, when the
    payload carries a non-empty string id, updates the location stored by
    the first request: the second answer is 200 and the number of stored
    locations does not change, whatever the clock and the generator
    are at the second request. *)
Theorem upsert_twice_updates e e' uid tp locs x raw payload pp s :
  oget tp "locations" = Some (VArr locs x) →
  Forall readable locs →
  parseBody raw = Ok payload →
  js_or payload (VObj []) = VObj pp →
  NoDup pp.*1 →
  oget pp "id" = Some (VStr s) →
  s ≠ "" →
  ∃ r1 locs1 r2 locs2,
    upsert_location e uid (VObj tp) raw =
      Ok (r1, Save (VObj (oset tp "locations" (VArr locs1 x))))
    ∧ upsert_location e' uid (VObj (oset tp "locations" (VArr locs1 x))) raw =
        Ok (r2, Save (VObj (oset tp "locations" (VArr locs2 x))))
    ∧ status r2 = 200%nat
    ∧ field (body r2) "id" = VStr s
    ∧ length locs2 = length locs1.
Proof.
  intros Hl Hr Hb Hp Hnd Hid Hs.
  assert (∀ e0, effective_id e0 pp = VStr s) as Heff.
  { intros e0. unfold effective_id. rewrite Hid. simpl.
    by apply String.eqb_neq in Hs as ->. }
  assert (∃ r1 locs1,
    upsert_location e uid (VObj tp) raw =
      Ok (r1, Save (VObj (oset tp "locations" (VArr locs1 x))))
    ∧ Forall readable locs1
    ∧ Exists (λ o, field o "id" = VStr s) locs1) as (r1 & locs1 & Hrun1 & Hr1 & Hex).
  { destruct (upsert_location_outcome e uid tp locs x raw payload pp Hl Hr Hb Hp Hnd)
      as [(i & o & merged & Hi & _ & Hrun & Hf) | (_ & created & Hrun & Hf)].
    - eexists _, _. split_and!; [exact Hrun|by apply Forall_insert|].
      apply Exists_exists. exists (VObj merged). split.
      + apply list_elem_of_lookup. exists i. apply list_lookup_insert_eq.
        by eapply lookup_lt_Some.
      + by rewrite field_obj, (Hf "id" _ ltac:(done) (incoming_id e uid pp)), Heff.
    - eexists _, _. split_and!; [exact Hrun| |].
      + apply Forall_app. split; [done|by repeat constructor].
      + apply Exists_app. right. left.
        by rewrite field_obj, (Hf "id" ltac:(done)), incoming_id, Heff. }
  destruct (upsert_location_outcome e' uid (oset tp "locations" (VArr locs1 x))
              locs1 x raw payload pp (oget_oset_eq _ _ _) Hr1 Hb Hp Hnd)
    as [(i & o & merged & Hi & _ & Hrun & Hf) | (Hmiss & _)].
  - exists r1, locs1. eexists _, _. split_and!; [exact Hrun1| | | |].
    + rewrite Hrun. by rewrite oset_oset.
    + done.
    + simpl. by rewrite field_obj, (Hf "id" _ ltac:(done) (incoming_id e' uid pp)), Heff.
    + by rewrite length_insert.
  - apply Exists_exists in Hex as (o & Hin & Ho).
    eapply Forall_forall in Hmiss; [|exact Hin]. simpl in Hmiss.
    by rewrite Heff, Ho, strict_eq_str_refl in Hmiss.
Qed.

(** DELETE /devices *)
Lemma delete_device_run tp devs x b qc qd :
  oget tp "devices" = Some (VArr devs x) →
  Forall readable devs →
  delete_device (VObj tp) b qc qd =
    let '(code, deviceId) := delete_identifiers b qc qd in
    if negb (truthy code) && negb (truthy deviceId)
    then Ok (Reply 400 (obj_error "code or deviceId required"), Keep)
    else
      let kept := List.filter (λ d, negb (matches code deviceId d)) devs in
      let deleted := (length devs - length kept)%nat in
      if (deleted =? 0)%nat then Ok (Reply 404 (obj_error "Device not found"), Keep)
      else Ok (Reply 200 (VObj [("ok", VBool true);
                                ("deleted", VNum (num_of_N (N.of_nat deleted)))]),
               Save (VObj (oset tp "devices" (VArr kept [])))).
Proof.
  intros Hd Hr. unfold delete_device, delete_identifiers.
  assert (∀ code deviceId,
    filter_m (λ d, m ← match_device code deviceId d; Ok (negb m)) devs
    = Ok (List.filter (λ d, negb (matches code deviceId d)) devs)) as Hf.
  { intros code deviceId. apply filter_m_pure.
    eapply Forall_impl; [exact Hr|]. intros d Hrd. simpl.
    by rewrite (match_device_matches _ _ _ Hrd). }
  destruct (parseBody b) as [p|err]; simpl.
  - rewrite !opt_get_field. simpl.
    destruct (negb _ && negb _); [done|].
    rewrite Hd. simpl. rewrite Hf. simpl.
    by destruct (_ =? 0)%nat.
  - destruct (negb _ && negb _); [done|].
    rewrite Hd. simpl. rewrite Hf. simpl.
    by destruct (_ =? 0)%nat.
Qed.

Lemma list_find_filter_out {A} (q : A → bool) (l : list A) :
  list_find (λ a, q a = true) (List.filter (λ a, negb (q a)) l) = None.
Proof.
  apply list_find_None. apply Forall_forall. intros a Ha.
  apply list_elem_of_In, List.filter_In in Ha as [_ Ha].
  apply negb_true_iff in Ha. congruence.
Qed.

(** X13.  DELETE /devices under a tenant whose devices are [devs] (none
    of them null), with identifiers of which one at least is truthy.  When
    no device matches, the answer is 404 and nothing is saved.  Otherwise
    the answer is 200 with the number of matching devices as [deleted],
    the saved devices are those that do not match, in store order, and the
    identifiers resolve to no pet afterwards. *)
Theorem delete_device_removes_matching tp devs x b qc qd code deviceId :
  oget tp "devices" = Some (VArr devs x) →
  Forall readable devs →
  delete_identifiers b qc qd = (code, deviceId) →
  truthy code = true ∨ truthy deviceId = true →
  (Forall (λ d, matches code deviceId d = false) devs
   ∧ delete_device (VObj tp) b qc qd = Ok (Reply 404 (obj_error "Device not found"), Keep))
  ∨ (∃ kept n tenant',
       delete_device (VObj tp) b qc qd =
         Ok (Reply 200 (VObj [("ok", VBool true);
                              ("deleted", VNum (num_of_N (N.of_nat n)))]),
             Save tenant')
       ∧ tenant' = VObj (oset tp "devices" (VArr kept []))
       ∧ (∀ d, d ∈ kept ↔ d ∈ devs ∧ matches code deviceId d = false)
       ∧ kept `sublist_of` devs
       ∧ (0 < n)%nat
       ∧ length devs = (length kept + n)%nat
       ∧ resolvePetIdByIdentifier tenant' code deviceId = Ok VUndef).
Proof.
  intros Hd Hr Hids Hsome.
  rewrite (delete_device_run tp devs x b qc qd Hd Hr), Hids.
  assert (negb (truthy code) && negb (truthy deviceId) = false) as ->.
  { by destruct Hsome as [-> | ->]; rewrite ?andb_false_r. }
  cbv zeta.
  set (q := λ d : value num, negb (matches code deviceId d)).
  pose proof (List.filter_length_le q devs) as Hle.
  destruct (Nat.eqb_spec (length devs - length (List.filter q devs)) 0) as [Hz|Hz].
  - left. split; [|done].
    assert (length (List.filter q devs) = length devs) as Hlen by lia.
    apply filter_length_all in Hlen.
    eapply Forall_impl; [exact Hlen|]. intros d Hq. by apply negb_true_iff in Hq.
  - right. eexists _, _, _. split_and!; [done|done| | |lia|lia|].
    + intros d. unfold q.
      by rewrite list_elem_of_In, List.filter_In, <-list_elem_of_In, negb_true_iff.
    + clear. induction devs as [|d l IH]; simpl; [done|].
      destruct (q d); [by apply sublist_skip|by apply sublist_cons].
    + rewrite (resolve_first_match _ (List.filter q devs) []);
        [|by rewrite get_prop_obj, oget_oset_eq|by apply Forall_filter_keeps].
      unfold q. by rewrite (list_find_filter_out (matches code deviceId)).
Qed.

Lemma js_or_str s v : s ≠ "" → js_or (VStr s) v = VStr s.
Proof. intros Hs. unfold js_or. simpl. by apply String.eqb_neq in Hs as ->. Qed.

Lemma js_or_undef_truthy v : truthy (js_or v VUndef) = truthy v.
Proof. unfold js_or. by destruct (truthy v) eqn:E. Qed.

(** A falsy identifier takes no part in the match, whichever it is. *)
Lemma match_device_or_undef code deviceId d :
  match_device (js_or code VUndef) (js_or deviceId VUndef) d
  = match_device code deviceId d.
Proof.
  unfold match_device, js_or.
  by destruct (truthy code) eqn:Ec, (truthy deviceId) eqn:Ed; simpl; rewrite ?Ec, ?Ed.
Qed.

Lemma filter_m_ext (p p' : value num → result bool) l :
  (∀ w, p w = p' w) → filter_m p l = filter_m p' l.
Proof.
  intros Hp. induction l as [|w l IH]; simpl; [done|]. by rewrite Hp, IH.
Qed.

(** X14.  The identifiers of DELETE /devices.  A body that does not parse
    is ignored, the request behaving as with an empty body; a non-empty
    query parameter wins over the property of the body, so with both
    parameters non-empty the body is not looked at; and with neither
    parameter and no truthy identifier in the body the answer is 400,
    whatever the tenant holds. *)
Theorem delete_device_identifiers tenant b qc qd :
  delete_device tenant Malformed qc qd = delete_device tenant Blank qc qd
  ∧ (∀ s1 s2 : string, s1 ≠ "" → s2 ≠ "" →
       delete_device tenant b (Some s1) (Some s2)
       = delete_device tenant Blank (Some s1) (Some s2))
  ∧ (truthy (fst (delete_identifiers b qc qd)) = false →
     truthy (snd (delete_identifiers b qc qd)) = false →
     delete_device tenant b qc qd
     = Ok (Reply 400 (obj_error "code or deviceId required"), Keep)).
Proof.
  split_and!.
  - unfold delete_device. simpl.
    rewrite !js_or_undef_truthy.
    destruct (negb _ && negb _); [done|].
    destruct (get_prop tenant "devices") as [devs|err]; simpl; [|done].
    destruct (as_array devs) as [[l y]|err]; simpl; [|done].
    rewrite (filter_m_ext _
      (λ d, m ← match_device (js_or (of_query qc) VUndef)
                             (js_or (of_query qd) VUndef) d; Ok (negb m))); [done|].
    intros d. by rewrite <-match_device_or_undef.
  - intros s1 s2 Hc Hd. unfold delete_device.
    destruct (parseBody b) as [p|err]; simpl;
      rewrite ?opt_get_field; simpl; by rewrite !js_or_str.
  - unfold delete_device, delete_identifiers.
    destruct (parseBody b) as [p|err]; simpl.
    + rewrite !opt_get_field. simpl. by intros -> ->.
    + by intros -> ->.
Qed.

(** POST /devices/detach *)
Lemma detach_device_run e tp devs x b payload qc qd :
  oget tp "devices" = Some (VArr devs x) →
  Forall readable devs →
  parseBody b = Ok payload →
  detach_device e (VObj tp) b qc qd =
    let '(code, deviceId) := detach_identifiers payload qc qd in
    if negb (truthy code) && negb (truthy deviceId)
    then Ok (Reply 400 (obj_error "code or deviceId required"), Keep)
    else
      match list_find (λ d, matches code deviceId d = true) devs with
      | None => Ok (Reply 404 (obj_error "Device not found"), Keep)
      | Some (i, d) =>
          let d' := written (written d "petId" VNull) "updatedAt" (VStr (clock e 0)) in
          Ok (Reply 200 d', Save (VObj (oset tp "devices" (VArr (<[i := d']> devs) x))))
      end.
Proof.
  intros Hd Hr Hb. unfold detach_device, detach_identifiers. rewrite Hb. simpl.
  rewrite !opt_get_field. simpl.
  destruct (negb _ && negb _); [done|].
  rewrite Hd. simpl.
  rewrite (find_index_pure _ (matches (js_or (field payload "code") (of_query qc))
                                      (js_or (field payload "deviceId") (of_query qd)))).
  2:{ eapply Forall_impl; [exact Hr|]. intros d. apply match_device_matches. }
  simpl. destruct (list_find _ devs) as [[i d]|] eqn:Ef; simpl; [|done].
  apply list_find_Some in Ef as (Hi & _ & _). rewrite Hi. simpl.
  assert (readable d) as Hrd.
  { rewrite Forall_forall in Hr. apply Hr. by eapply list_elem_of_lookup_2. }
  unfold written. by destruct d.
Qed.

(** X15.  POST /devices/detach under a tenant whose devices are [devs]
    (none of them null), with identifiers of which one at least is truthy
    (a property of the body wins over the query parameter).  When no
    device matches, the answer is 404 and nothing is saved.  Otherwise
    the first matching device alone is changed: it is answered and stored
    with petId null and the current time as updatedAt, its other
    properties are as before, and every other device is as before. *)
Theorem detach_changes_first_match e tp devs x b payload qc qd code deviceId :
  oget tp "devices" = Some (VArr devs x) →
  Forall record devs →
  parseBody b = Ok payload →
  detach_identifiers payload qc qd = (code, deviceId) →
  truthy code = true ∨ truthy deviceId = true →
  (Forall (λ d, matches code deviceId d = false) devs
   ∧ detach_device e (VObj tp) b qc qd
     = Ok (Reply 404 (obj_error "Device not found"), Keep))
  ∨ (∃ i old new,
       devs !! i = Some (VObj old)
       ∧ matches code deviceId (VObj old) = true
       ∧ (∀ j d, devs !! j = Some d → (j < i)%nat → matches code deviceId d = false)
       ∧ detach_device e (VObj tp) b qc qd =
           Ok (Reply 200 (VObj new),
               Save (VObj (oset tp "devices" (VArr (<[i := VObj new]> devs) x))))
       ∧ oget new "petId" = Some VNull
       ∧ oget new "updatedAt" = Some (VStr (clock e 0))
       ∧ (∀ k, k ≠ "petId" → k ≠ "updatedAt" → oget new k = oget old k)
       ∧ (∀ j, j ≠ i → <[i := VObj new]> devs !! j = devs !! j)
       ∧ length (<[i := VObj new]> devs) = length devs).
Proof.
  intros Hd Hrec Hb Hids Hsome.
  assert (Forall readable devs) as Hr.
  { eapply Forall_impl; [exact Hrec|]. apply record_readable. }
  rewrite (detach_device_run e tp devs x b payload qc qd Hd Hr Hb), Hids.
  assert (negb (truthy code) && negb (truthy deviceId) = false) as ->.
  { by destruct Hsome as [-> | ->]; rewrite ?andb_false_r. }
  destruct (list_find _ devs) as [[i d]|] eqn:Ef.
  - right. apply list_find_Some in Ef as (Hi & Hm & Hfirst).
    assert (record d) as (old & -> & _).
    { rewrite Forall_forall in Hrec. apply Hrec. by eapply list_elem_of_lookup_2. }
    exists i, old. eexists. split_and!; [done|done| |done| | | | |].
    + intros j d Hj Hlt. apply not_true_is_false. by eapply Hfirst.
    + by rewrite oget_oset_ne, oget_oset_eq.
    + apply oget_oset_eq.
    + intros k Hp Hu. by rewrite !oget_oset_ne.
    + intros j Hj. by apply list_lookup_insert_ne.
    + apply length_insert.
  - left. split; [|done]. apply list_find_None in Ef.
    eapply Forall_impl; [exact Ef|]. intros d. apply not_true_is_false.
Qed.

(** X16.  A request of POST /localizacao, /locations/ingest,
    /devices/register or /devices/detach whose body does not parse is
    answered 400 and leaves the data file as loading left it; when the
    loaded store has an object of tenants the answer is
    [{error: "Invalid JSON"}]. *)
Theorem malformed_body_is_rejected e uid (req : request num) (f : file num) :
  parsed_body req = Some Malformed →
  status (server e uid req f).1 = 400%nat
  ∧ (server e uid req f).2 = ensureDataFile f
  ∧ ∀ dp ts, (readData f).1 = VObj dp → oget dp "tenants" = Some (VObj ts) →
      body (server e uid req f).1 = obj_error "Invalid JSON".
Proof.
  intros Hreq.
  assert (∀ t, route e uid t req = Throw InvalidJSON) as Hroute.
  { intros t. by destruct req as [| [] | [] | [] | | [] | | | |]. }
  unfold server. rewrite (surjective_pairing (readData f)), readData_file.
  split_and!.
  - unfold process. destruct (getTenant _ uid) as [[d t]|err]; simpl; [|done].
    by rewrite Hroute.
  - unfold process. destruct (getTenant _ uid) as [[d t]|err]; simpl; [|done].
    by rewrite Hroute.
  - intros dp ts Hdp Hts. cbn [fst] in Hdp.
    rewrite Hdp, (process_object_store _ _ _ _ _ Hts).
    cbv zeta. by rewrite Hroute.
Qed.

(** ** Normalising a tenant twice *)

Lemma ensure_array_primitive t f : is_ref t = false → ensure_array t f = t.
Proof.
  intros Ht. unfold ensure_array, written.
  destruct (is_array _); [done|]. by destruct t.
Qed.

Lemma ensure_array_is_ref t f : is_ref t = true → is_ref (ensure_array t f) = true.
Proof.
  intros Ht. unfold ensure_array, written. destruct (is_array _); [done|].
  destruct t; try done; simpl.
  destruct (String.eqb f "length"); [by destruct (num_to_length _)|].
  destruct (array_index f); [by destruct (_ <? _)%nat|done].
Qed.

Lemma ensure_array_holds t f :
  is_ref t = true → f = "locations" ∨ f = "devices" →
  is_array (field (ensure_array t f) f) = true.
Proof.
  intros Ht Hf. unfold ensure_array. destruct (is_array (field t f)) eqn:E; [done|].
  destruct t; try done; destruct Hf as [-> | ->]; unfold written, field; simpl;
    by rewrite oget_oset_eq.
Qed.

Lemma ensure_array_other t f g :
  is_ref t = true → f = "locations" ∨ f = "devices" → g = "locations" ∨ g = "devices" →
  f ≠ g → field (ensure_array t f) g = field t g.
Proof.
  intros Ht Hf Hg Hne. unfold ensure_array. destruct (is_array (field t f)); [done|].
  destruct t; try done;
    destruct Hf as [-> | ->], Hg as [-> | ->]; try done;
    unfold written, field; simpl; by rewrite oget_oset_ne.
Qed.

Lemma ensure_array_fixed t f : is_array (field t f) = true → ensure_array t f = t.
Proof. intros Hf. unfold ensure_array. by rewrite Hf. Qed.

Lemma normalized_idempotent t : normalized (normalized t) = normalized t.
Proof.
  unfold normalized at 2.
  set (t1 := if truthy t then t else fresh_tenant).
  assert (truthy t1 = true) as Ht1.
  { unfold t1. by destruct (truthy t) eqn:E. }
  destruct (is_ref t1) eqn:Er.
  - pose proof (ensure_array_is_ref t1 "locations" Er) as Er2.
    pose proof (ensure_array_is_ref _ "devices" Er2) as Er3.
    set (n := ensure_array (ensure_array t1 "locations") "devices") in *.
    unfold normalized.
    assert (truthy n = true) as -> by by destruct n.
    rewrite (ensure_array_fixed n "locations").
    + apply ensure_array_fixed. apply ensure_array_holds; auto.
    + unfold n. rewrite ensure_array_other by auto.
      apply ensure_array_holds; auto.
  - rewrite !(ensure_array_primitive t1) by done.
    unfold normalized. rewrite Ht1. by rewrite !(ensure_array_primitive t1).
Qed.

(** X17.  [getTenant] normalises once and for all: on a store with an
    object of tenants it returns, and a second call on the store it left
    returns the same tenant and leaves that store as it is.  The tenant
    returned, when it is an object or an array, has arrays as its
    [locations] and [devices]. *)
Theorem getTenant_idempotent dp ts uid :
  oget dp "tenants" = Some (VObj ts) →
  ∃ data1 t,
    getTenant (VObj dp) uid = Ok (data1, t)
    ∧ getTenant data1 uid = Ok (data1, t)
    ∧ entry data1 uid = t
    ∧ (is_ref t = true →
       is_array (field t "locations") = true ∧ is_array (field t "devices") = true).
Proof.
  intros Hts. rewrite (tenant_of_store _ _ _ Hts). cbv zeta.
  eexists _, _. split_and!; [done| |apply entry_saved|].
  - rewrite (tenant_of_store _ (oset ts uid _) uid) by apply oget_oset_eq.
    cbv zeta. rewrite oget_oset_eq. simpl.
    by rewrite normalized_idempotent, !oset_oset.
  - unfold normalized.
    set (t1 := if truthy _ then _ else fresh_tenant).
    intros Hn. destruct (is_ref t1) eqn:Er.
    + pose proof (ensure_array_is_ref t1 "locations" Er) as Er2. split.
      * rewrite ensure_array_other by auto. apply ensure_array_holds; auto.
      * apply ensure_array_holds; auto.
    + rewrite !(ensure_array_primitive t1) in Hn by done. congruence.
Qed.

(** ** Registration, then ingestion *)




(** ** What the server answers *)



(** ** Ingestion, then listing *)


End Properties.

(** * The command-line tools *)

Section Tools.
Context {num : Type} `{JsNum num}.

Lemma strip_prefix_Some p s r : strip_prefix p s = Some r ↔ s = p +:+ r.
Proof.
  revert s. induction p as [|a p IH]; intros s; simpl.
  - split; [by intros [= ->]|by intros ->].
  - destruct s as [|b s]; [done|].
    destruct (Ascii.eqb_spec a b) as [->|Hne].
    + rewrite IH. split; [by intros ->|by intros [= ->]].
    + split; [done|]. intros [= ? ?]. done.
Qed.

Lemma split_equals_render k v :
  equals_sign ∉ characters k →
  split_equals (k +:+ String equals_sign v) = Some (k, v).
Proof.
  induction k as [|c k IH]; simpl; intros Hk.
  - by rewrite ?Ascii.eqb_refl.
  - destruct (Ascii.eqb_spec c equals_sign) as [->|Hne].
    + exfalso. apply Hk. left.
    + rewrite IH; [done|]. intros Hin. apply Hk. by right.
Qed.

Lemma split_equals_inv s k v :
  split_equals s = Some (k, v) →
  s = k +:+ String equals_sign v ∧ equals_sign ∉ characters k.
Proof.
  revert k. induction s as [|c s IH]; intros k; simpl; [done|].
  destruct (Ascii.eqb_spec c equals_sign) as [->|Hne].
  - intros [= <- <-]. split; [done|]. apply not_elem_of_nil.
  - destruct (split_equals s) as [[k' v']|]; [|done].
    intros [= <- <-]. destruct (IH k' eq_refl) as [-> Hk].
    split; [done|]. simpl. intros [?|?]%elem_of_cons; [congruence|done].
Qed.

(** X19.  The pattern of [parseArgs]: an argument matches, with groups
    [k] and [v], exactly when it is two dashes, [k], an equals sign and
    [v], where [k] is not empty and has no equals sign, and [v] has no
    line terminator.  So the key ends at the first equals sign, the value
    may hold further ones and may be empty, and a key may itself begin
    with a dash. *)
Theorem match_arg_pattern a k v :
  match_arg a = Some (k, v)
  ↔ a = render_arg k v ∧ k ≠ "" ∧ (equals_sign ∉ characters k) ∧ one_line v = true.
Proof.
  unfold match_arg, render_arg. split.
  - destruct (strip_prefix "--" a) as [r|] eqn:Ep; [|done].
    apply strip_prefix_Some in Ep as ->.
    destruct (split_equals r) as [[k' v']|] eqn:Es; [|done].
    apply split_equals_inv in Es as [-> Hk].
    destruct (String.eqb_spec k' "") as [->|Hne]; simpl; [done|].
    destruct (one_line v') eqn:Ho; [|done].
    by intros [= <- <-].
  - intros (-> & Hne & Hk & Hv).
    assert (strip_prefix "--" ("--" +:+ k +:+ String equals_sign v)
            = Some (k +:+ String equals_sign v)) as -> by by apply strip_prefix_Some.
    assert (split_equals (k +:+ String equals_sign v) = Some (k, v)) as ->
      by by apply split_equals_render.
    apply String.eqb_neq in Hne. by rewrite Hne, Hv.
Qed.



(** ** The store as [seed.js] loads it *)

Lemma seed_readData_file (f : file num) : (Seed.readData f).2 = Seed.ensureFile f.
Proof. done. Qed.

Lemma entry_single k (t : value num) uid :
  entry (VObj [("tenants", VObj [(k, t)])]) uid = if String.eqb k uid then t else VUndef.
Proof.
  unfold entry. rewrite field_obj. cbn [oget String.eqb Ascii.eqb Bool.eqb default id].
  rewrite field_obj. cbn [oget]. by destruct (String.eqb k uid).
Qed.

(** X21.  On a data file that holds an object or an array, [seed.js]
    and the server load the same store, except for a file of the former
    format (an array under [locations]), where the tenant "default" that
    [seed.js] builds lacks [devices]; in every case the server's
    [getTenant] makes the same tenant of the entry found in either store. *)
Theorem seed_loads_the_server_store (c : text (value num)) (j : value num) uid :
  parse_or_empty c = Ok j →
  is_ref j = true →
  (is_array (field j "locations") = false →
   (Seed.readData (Some c)).1 = (readData (Some c)).1)
  ∧ (is_array (field j "locations") = true →
     entry (Seed.readData (Some c)).1 "default" = VObj [("locations", field j "locations")]
     ∧ entry (readData (Some c)).1 "default"
       = VObj [("locations", field j "locations"); ("devices", VArr [] [])])
  ∧ normalized (entry (Seed.readData (Some c)).1 uid)
    = normalized (entry (readData (Some c)).1 uid).
Proof.
  intros Hc Hj.
  assert (readable j) as Hr by by destruct j.
  assert (negb (truthy j) || negb (typeof_object j) = false) as Hobj by by destruct j.
  unfold Seed.readData, readData.
  cbn [Seed.ensureFile ensureDataFile fst]. rewrite Hc.
  cbn [mbind result_bind]. rewrite Hobj, !(get_prop_field _ _ Hr).
  cbn [mbind result_bind].
  destruct (is_array (field j "locations")) eqn:El.
  - split_and!; [done|done|].
    rewrite !entry_single.
    destruct (String.eqb "default" uid) eqn:Eu; [|done].
    unfold normalized. cbn [truthy].
    rewrite (ensure_array_fixed _ "locations") by (by rewrite field_obj).
    by rewrite (ensure_array_fixed (VObj [_; _])), ensure_array_obj.
  - split_and!; [done|done|done].
Qed.

(** X22.  On a data file that holds a JSON number, string or boolean the
    server serves the empty store, while [seed.js] takes the value itself
    for the store and its [getTenant] then raises. *)
Theorem seed_fails_on_primitive_file (j : value num) uid :
  is_ref j = false →
  readable j →
  (readData (Some (Json j))).1 = empty_store
  ∧ (Seed.readData (Some (Json j))).1 = j
  ∧ Seed.getTenant j uid = Throw TypeError
  ∧ ∀ new, Seed.main uid new (Some (Json j)) = (Some TypeError, Some (Json j)).
Proof.
  intros Hj Hr.
  assert ((Seed.readData (Some (Json j))).1 = j) as Hload.
  { destruct j as [| | b | n | s | |]; try done. }
  assert (Seed.getTenant j uid = Throw TypeError) as Hget.
  { destruct j as [| | b | n | s | |]; try done. }
  split_and!; [|done|done|].
  - unfold readData. cbn [ensureDataFile parse_or_empty mbind result_bind fst].
    assert (negb (truthy j) || negb (typeof_object j) = true) as ->; [|done].
    destruct j; try done; apply orb_true_r.
  - intros new. unfold Seed.main.
    rewrite (surjective_pairing (Seed.readData _)), Hload, seed_readData_file.
    by rewrite Hget.
Qed.

(** ** Seeding *)

Lemma seed_getTenant_run dp ts uid :
  oget dp "tenants" = Some (VObj ts) →
  Seed.getTenant (VObj dp) uid =
    let t0 := default VUndef (oget ts uid) in
    let t := if truthy t0 then t0 else VObj [("locations", VArr [] [])] in
    Ok (VObj (oset dp "tenants" (VObj (oset ts uid t))), t).
Proof.
  intros Hts. unfold Seed.getTenant. rewrite get_prop_obj, Hts. simpl.
  destruct (truthy (default VUndef (oget ts uid))) eqn:Et; simpl.
  - destruct (oget ts uid) as [t|] eqn:Eg; [|done]. simpl.
    by rewrite (oset_same _ _ _ Eg).
  - by rewrite oget_oset_eq.
Qed.



(** X24.  [seed.js] does not repair a tenant as the server does: when the
    entry of [uid] is an object whose [locations] is not an array, and
    there is a location to insert, [main] ends on a [TypeError] and
    writes nothing, while the server's [getTenant] would have given the
    tenant an empty array of locations. *)
Theorem seed_does_not_repair uid loc rest dp ts tp (f : file num) :
  (Seed.readData f).1 = VObj dp →
  oget dp "tenants" = Some (VObj ts) →
  oget ts uid = Some (VObj tp) →
  is_array (default VUndef (oget tp "locations")) = false →
  Seed.main uid (loc :: rest) f = (Some TypeError, Seed.ensureFile f)
  ∧ ∃ data1 t, getTenant (VObj dp) uid = Ok (data1, t)
      ∧ field t "locations" = VArr [] [].
Proof.
  intros Hdp Hts Ht Hl. split.
  - unfold Seed.main.
    rewrite (surjective_pairing (Seed.readData f)), Hdp, seed_readData_file.
    rewrite (seed_getTenant_run _ _ _ Hts). cbv zeta. rewrite Ht.
    cbn [default id truthy Seed.push_all]. unfold Seed.push.
    cbn [get_prop mbind result_bind].
    by destruct (default VUndef (oget tp "locations")).
  - rewrite (tenant_of_store _ _ _ Hts). cbv zeta. eexists _, _. split; [done|].
    rewrite Ht. unfold normalized. cbn [default id truthy].
    rewrite ensure_array_other;
      [|by apply ensure_array_is_ref|by right|by left|done].
    rewrite ensure_array_obj, Hl. by rewrite field_obj, oget_oset_eq.
Qed.

End Tools.

(** * Examples *)

Section Examples.
Import Sample.
Local Existing Instance TestNum.js_num.

Ltac readable_all := by repeat constructor.

Ltac record_all :=
  repeat constructor; eexists; (split; [reflexivity|]);
  apply (bool_decide_unpack _); by vm_compute.

Ltac distinct_keys := apply (bool_decide_unpack _); by vm_compute.

Ltac json_all :=
  repeat first
    [ apply json_null | apply json_bool | apply json_str
    | apply json_num; reflexivity
    | apply json_arr | apply json_obj; [distinct_keys|]
    | apply Forall_nil_2 | apply Forall_cons_2; simpl ].


(** A file in the single-tenant shape is loaded as the tenant "default". *)
Lemma legacy_file_is_migrated_on_load_witness :
  readData (Some (Json (VObj [("locations", VArr [home] [])]))) =
    (VObj [("tenants",
            VObj [("default",
                   VObj [("locations", VArr [home] []); ("devices", VArr [] [])])])],
     Some (Json (VObj [("locations", VArr [home] [])]))).
Proof.
  apply (legacy_file_is_migrated_on_load (num:=TestNum.t)
           [("locations", VArr [home] [])] [home] []).
  reflexivity.
Defined.


(** An ingest without identifier is refused, one for an unknown device
    or for a detached one finds no pet; the data file stays as it was. *)
Lemma ingest_failures_store_nothing_witness :
  server e0 "u1" (Ingest (Json (VObj [("lat", VNum (Some 1%Z)); ("lng", VNum (Some 2%Z))])))
         file1
    = (Reply 400 (obj_error "code or deviceId required"), file1)
  ∧ server e0 "u1"
           (Ingest (Json (VObj [("deviceId", VStr "D9"); ("lat", VNum (Some 1%Z));
                                ("lng", VNum (Some 2%Z))])))
           file1
      = (Reply 404 (obj_error "Pet not found for given identifier"), file1)
  ∧ server e0 "u1" (Ingest (Json (VObj [("code", VStr "C1")]))) file_detached
      = (Reply 404 (obj_error "Pet not found for given identifier"), file_detached).
Proof.
  split_and!.
  - eapply (ingest_failures_store_nothing e0 "u1" file1
              (Json (VObj [("lat", VNum (Some 1%Z)); ("lng", VNum (Some 2%Z))]))).
    + reflexivity.
    + vm_compute. reflexivity.
    + reflexivity.
    + reflexivity.
  - eapply (ingest_failures_store_nothing e0 "u1" file1
              (Json (VObj [("deviceId", VStr "D9"); ("lat", VNum (Some 1%Z));
                           ("lng", VNum (Some 2%Z))]))).
    + reflexivity.
    + vm_compute. reflexivity.
    + by right.
    + vm_compute. reflexivity.
    + readable_all.
    + left. by repeat constructor.
  - eapply (ingest_failures_store_nothing e0 "u1" file_detached
              (Json (VObj [("code", VStr "C1")]))).
    + reflexivity.
    + vm_compute. reflexivity.
    + by left.
    + vm_compute. reflexivity.
    + readable_all.
    + right. exists 0%nat. eexists. split_and!; [reflexivity|reflexivity| |reflexivity].
      intros j d' _ Hj. lia.
Defined.

(** C4, as stated, fails: a payload with no petId and a latitude that is
    not a number is answered 201, and stored as it is. *)
Lemma upsert_without_petId_is_stored :
  let out :=
    server e0 "u1"
      (UpsertLocation (Json (VObj [("label", VStr "casa"); ("latitude", VStr "north")])))
      empty_file in
  out.1 = Reply 201 (VObj [("label", VStr "casa"); ("latitude", VStr "north");
                           ("id", VStr "loc_lvo1x2ab_k3j9qz"); ("uid", VStr "u1");
                           ("createdAt", VStr "2024-05-01T10:00:00.000Z")])
  ∧ out.2 =
      Some (Json (VObj [("tenants",
        VObj [("u1",
          VObj [("locations",
                 VArr [VObj [("label", VStr "casa"); ("latitude", VStr "north");
                             ("id", VStr "loc_lvo1x2ab_k3j9qz"); ("uid", VStr "u1");
                             ("createdAt", VStr "2024-05-01T10:00:00.000Z")]] []);
                ("devices", VArr [] [])])])]))
  ∧ ¬ (status out.1 = 400%nat ∧ out.2 = empty_file).
Proof.
  split_and!; [reflexivity|reflexivity|]. intros [Hs _]. vm_compute in Hs. discriminate.
Qed.

(** A payload without petId and without id is appended as it is. *)
Lemma upsert_location_does_not_validate_witness :
  ∃ created,
    upsert_location e0 "u1" (VObj tenant1) (Json (VObj [("label", VStr "casa")])) =
      Ok (Reply 201 (VObj created),
          Save (VObj (oset tenant1 "locations" (VArr [home; park; VObj created] []))))
    ∧ oget created "petId" = None
    ∧ oget created "latitude" = None.
Proof.
  destruct (upsert_location_does_not_validate e0 "u1" tenant1 [home; park] []
              (Json (VObj [("label", VStr "casa")]))
              (VObj [("label", VStr "casa")])
              [("label", VStr "casa")])
    as [(created & Hrun & Hf) | (i & old & merged & Hi & Hrun & Hf)].
  - reflexivity.
  - record_all.
  - reflexivity.
  - reflexivity.
  - distinct_keys.
  - exists created. split_and!; [exact Hrun| |].
    + rewrite Hf; [reflexivity|]. left.
    + rewrite Hf; [reflexivity|]. right. left.
  - vm_compute in Hrun. discriminate Hrun.
Defined.

(** Registering the tag C1 for pet P7, resolving it, detaching it. *)
Lemma device_resolution_witness :
  ∃ r t1,
    register_device e0 (VObj tenant1)
      (Json (VObj [("petId", VStr "P7"); ("code", VStr "C1")])) = Ok (r, Save t1)
    ∧ status r = 201%nat
    ∧ resolvePetIdByIdentifier t1 (VStr "C1") VUndef = Ok (VStr "P7")
    ∧ ∃ r2 t2,
        detach_device e0 t1 (Json (VObj [("code", VStr "C1")])) None None = Ok (r2, Save t2)
        ∧ status r2 = 200%nat
        ∧ resolvePetIdByIdentifier t2 (VStr "C1") VUndef = Ok VNull.
Proof.
  destruct (device_resolution e0 e0 tenant1 [tag] []
              (Json (VObj [("petId", VStr "P7"); ("code", VStr "C1")]))
              (VObj [("petId", VStr "P7"); ("code", VStr "C1")]) "C1") as [Hreg _].
  - reflexivity.
  - readable_all.
  - reflexivity.
  - reflexivity.
  - reflexivity.
  - discriminate.
  - exact Hreg.
Defined.





(** C3: what the code does on two registrations.  A first registration
    stores a record with [createdAt] and answers with a record that has
    none.  A registration again of the same code, which supplies neither
    deviceId nor name, stores (and answers with) a record that has lost
    the deviceId and the name it had. *)
Lemma register_device_divergence :
  server e0 "u1" (RegisterDevice (Json (VObj [("petId", VStr "P1"); ("code", VStr "C1")])))
         empty_file
    = (Reply 201 (VObj [("petId", VStr "P1"); ("code", VStr "C1");
                        ("updatedAt", VStr "2024-05-01T10:00:00.000Z")]),
       Some (Json (VObj [("tenants",
         VObj [("u1",
           VObj [("locations", VArr [] []);
                 ("devices",
                  VArr [VObj [("petId", VStr "P1"); ("code", VStr "C1");
                              ("updatedAt", VStr "2024-05-01T10:00:00.000Z");
                              ("createdAt", VStr "2024-05-01T10:00:00.001Z")]] [])])])])))
  ∧ server e0 "u1" (RegisterDevice (Json (VObj [("petId", VStr "P2"); ("code", VStr "C1")])))
           file1
    = (Reply 201 (VObj [("petId", VStr "P2"); ("code", VStr "C1");
                        ("updatedAt", VStr "2024-05-01T10:00:00.000Z");
                        ("createdAt", VStr "2024-04-01T00:00:00.000Z")]),
       Some (Json (VObj [("tenants",
         VObj [("u1",
                VObj [("locations", VArr [home; park] []);
                      ("devices",
                       VArr [VObj [("petId", VStr "P2"); ("code", VStr "C1");
                                   ("updatedAt", VStr "2024-05-01T10:00:00.000Z");
                                   ("createdAt", VStr "2024-04-01T00:00:00.000Z")]] [])]);
               ("u2", VObj tenant2)])]))).
Proof. by split. Qed.

(** ** Further properties, on the sample store *)

(** Deleting a location that does not exist answers 404 and leaves the
    file alone. *)
Lemma failed_request_saves_nothing_witness :
  (server e0 "u1" (DeleteLocation "zz") file1).2 = ensureDataFile file1.
Proof.
  apply (failed_request_saves_nothing e0 "u1" (DeleteLocation "zz") file1);
    by vm_compute.
Defined.

(** A file that holds the number 5 is served as the empty store. *)
Lemma corrupted_file_is_served_as_empty_witness :
  (server e0 "u1" (ListLocations "P1") (Some (Json (VNum (Some 5%Z))))).1
  = (server e0 "u1" (ListLocations "P1") (Some (Json empty_store))).1.
Proof.
  assert (unrecoverable (Json (VNum (Some 5%Z) : val))) as Hbad by reflexivity.
  destruct (corrupted_file_is_served_as_empty e0 "u1" (ListLocations "P1")
              (Json (VNum (Some 5%Z))) Hbad) as [Hreply _].
  exact Hreply.
Defined.

(** The sample store is read back as it was written. *)
Lemma save_then_load_witness :
  readData (writeData (VObj store1) None) = (VObj store1, Some (Json (VObj store1))).
Proof.
  apply (save_then_load store1 tenants1 None); [json_all|reflexivity|reflexivity].
Defined.




(** Deleting the location "a" keeps the location "b". *)
Lemma delete_location_by_id_witness :
  ∃ kept,
    delete_location (VObj tenant1) "a" =
      Ok (Reply 200 (VObj [("ok", VBool true)]),
          Save (VObj (oset tenant1 "locations" (VArr kept []))))
    ∧ park ∈ kept ∧ home ∉ kept.
Proof.
  destruct (delete_location_by_id tenant1 [home; park] [] "a" eq_refl
              ltac:(readable_all)) as [[Hnone _] | (_ & kept & Hrun & Hmem & _)].
  - apply Forall_cons in Hnone as [Hhome _]. by exfalso; apply Hhome.
  - exists kept. split_and!; [exact Hrun| |].
    + apply Hmem. split; [right; left|]. intros Heq. discriminate Heq.
    + intros Hin. apply Hmem in Hin as [_ Hne]. by apply Hne.
Defined.

(** A location created under the id "c" is removed by a deletion of
    "c". *)
Lemma create_then_delete_witness :
  ∃ created tenant',
    upsert_location e0 "u1" (VObj tenant1)
      (Json (VObj [("id", VStr "c"); ("petId", VStr "P1")]))
      = Ok (Reply 201 created, Save tenant')
    ∧ field created "id" = VStr "c"
    ∧ delete_location tenant' "c" =
        Ok (Reply 200 (VObj [("ok", VBool true)]),
            Save (VObj (oset tenant1 "locations" (VArr [home; park] [])))).
Proof.
  apply (create_then_delete e0 "u1" tenant1 [home; park] []
           (Json (VObj [("id", VStr "c"); ("petId", VStr "P1")]))
           (VObj [("id", VStr "c"); ("petId", VStr "P1")])
           [("id", VStr "c"); ("petId", VStr "P1")] "c");
    [reflexivity|readable_all|reflexivity|reflexivity|distinct_keys|reflexivity|].
  repeat constructor; intros Heq; discriminate Heq.
Defined.

(** The ids "a" and "b" stay distinct when "a" is updated. *)
Lemma upsert_keeps_ids_distinct_witness :
  ∃ r locs',
    upsert_location e0 "u1" (VObj tenant1)
      (Json (VObj [("id", VStr "a"); ("label", VStr "casa")])) =
      Ok (r, Save (VObj (oset tenant1 "locations" (VArr locs' []))))
    ∧ Forall (λ o, ∃ t, field o "id" = VStr t) locs'
    ∧ NoDup ((λ o, field o "id") <$> locs')
    ∧ (status r = 201%nat ∧ length locs' = S (length [home; park])
       ∨ status r = 200%nat ∧ length locs' = length [home; park]).
Proof.
  apply (upsert_keeps_ids_distinct e0 "u1" tenant1 [home; park] []
           (Json (VObj [("id", VStr "a"); ("label", VStr "casa")]))
           (VObj [("id", VStr "a"); ("label", VStr "casa")])
           [("id", VStr "a"); ("label", VStr "casa")] "a");
    [reflexivity|readable_all|reflexivity|reflexivity|distinct_keys|reflexivity| |].
  - repeat constructor; by eexists.
  - apply NoDup_cons_2; [|apply NoDup_singleton].
    intros Hin. apply list_elem_of_singleton in Hin. discriminate Hin.
Defined.

(** The same body sent twice: a creation, then an update. *)
Lemma upsert_twice_updates_witness :
  ∃ r1 locs1 r2 locs2,
    upsert_location e0 "u1" (VObj tenant1)
      (Json (VObj [("id", VStr "c"); ("label", VStr "x")])) =
      Ok (r1, Save (VObj (oset tenant1 "locations" (VArr locs1 []))))
    ∧ upsert_location e0 "u1" (VObj (oset tenant1 "locations" (VArr locs1 [])))
        (Json (VObj [("id", VStr "c"); ("label", VStr "x")])) =
        Ok (r2, Save (VObj (oset tenant1 "locations" (VArr locs2 []))))
    ∧ status r2 = 200%nat
    ∧ field (body r2) "id" = VStr "c"
    ∧ length locs2 = length locs1.
Proof.
  apply (upsert_twice_updates e0 e0 "u1" tenant1 [home; park] []
           (Json (VObj [("id", VStr "c"); ("label", VStr "x")]))
           (VObj [("id", VStr "c"); ("label", VStr "x")])
           [("id", VStr "c"); ("label", VStr "x")] "c");
    [reflexivity|readable_all|reflexivity|reflexivity|distinct_keys|reflexivity
    |discriminate].
Defined.

(** DELETE /devices?code=C1 removes the tag. *)
Lemma delete_device_removes_matching_witness :
  delete_device (VObj tenant1) Blank (Some "C1") None =
    Ok (Reply 200 (VObj [("ok", VBool true); ("deleted", VNum (Some 1%Z))]),
        Save (VObj [("locations", VArr [home; park] []); ("devices", VArr [] [])])).
Proof.
  destruct (delete_device_removes_matching tenant1 [tag] [] Blank (Some "C1") None
              (VStr "C1") VUndef eq_refl ltac:(readable_all) eq_refl
              ltac:(by left))
    as [[Hnone _] | (kept & n & tenant' & Hrun & -> & _ & _ & Hpos & Hlen & _)].
  - apply Forall_cons in Hnone as [Htag _]. discriminate Htag.
  - simpl in Hlen. destruct kept as [|d kept]; simpl in Hlen; [|lia].
    assert (n = 1%nat) as -> by lia. exact Hrun.
Defined.

(** Without identifiers DELETE /devices answers 400. *)
Lemma delete_device_identifiers_witness :
  delete_device (VObj tenant1) Malformed None None =
    Ok (Reply 400 (obj_error "code or deviceId required"), Keep).
Proof.
  destruct (delete_device_identifiers (VObj tenant1) Malformed None None)
    as (_ & _ & Hnone).
  apply Hnone; reflexivity.
Defined.

(** Detaching the tag by its code. *)
Lemma detach_changes_first_match_witness :
  ∃ new,
    detach_device e0 (VObj tenant1) (Json (VObj [("code", VStr "C1")])) None None =
      Ok (Reply 200 (VObj new),
          Save (VObj (oset tenant1 "devices" (VArr [VObj new] []))))
    ∧ oget new "petId" = Some VNull
    ∧ oget new "name" = Some (VStr "Rex").
Proof.
  destruct (detach_changes_first_match e0 tenant1 [tag] []
              (Json (VObj [("code", VStr "C1")])) (VObj [("code", VStr "C1")])
              None None (VStr "C1") VNull eq_refl ltac:(record_all) eq_refl eq_refl
              ltac:(by left))
    as [[Hnone _] | (i & old & new & Hi & _ & _ & Hrun & Hpet & _ & Hrest & _)].
  - apply Forall_cons in Hnone as [Htag _]. discriminate Htag.
  - destruct i as [|i]; [|by destruct i].
    injection Hi as <-. exists new. split_and!; [exact Hrun|exact Hpet|].
    by rewrite Hrest.
Defined.

(** A reading whose body does not parse. *)
Lemma malformed_body_is_rejected_witness :
  status (server e0 "u1" (Ingest Malformed) file1).1 = 400%nat
  ∧ (server e0 "u1" (Ingest Malformed) file1).2 = file1
  ∧ body (server e0 "u1" (Ingest Malformed) file1).1 = obj_error "Invalid JSON".
Proof.
  destruct (malformed_body_is_rejected e0 "u1" (Ingest Malformed) file1 eq_refl)
    as (Hstatus & Hfile & Hbody).
  split_and!; [exact Hstatus|exact Hfile|].
  apply (Hbody store1 tenants1); reflexivity.
Defined.

(** A tenant that the store does not know yet. *)
Lemma getTenant_idempotent_witness :
  ∃ data1 t,
    getTenant (VObj store1) "u3" = Ok (data1, t)
    ∧ getTenant data1 "u3" = Ok (data1, t)
    ∧ entry data1 "u3" = t
    ∧ (is_ref t = true →
       is_array (field t "locations") = true ∧ is_array (field t "devices") = true).
Proof. apply (getTenant_idempotent store1 tenants1 "u3"). reflexivity. Defined.


(** The key ends at the first equals sign. *)
Lemma match_arg_pattern_witness : match_arg "--label=a=b" = Some ("label", "a=b").
Proof.
  apply (proj2 (match_arg_pattern "--label=a=b" "label" "a=b")).
  split_and!; [reflexivity|discriminate| |reflexivity].
  apply (bool_decide_unpack _). by vm_compute.
Defined.


(** A file of the former format, loaded by the tool and by the server. *)
Lemma seed_loads_the_server_store_witness :
  normalized (entry (Seed.readData (Some (Json (VObj [("locations", VArr [home] [])])))).1
                    "default")
  = entry (readData (Some (Json (VObj [("locations", VArr [home] [])])))).1 "default".
Proof.
  destruct (seed_loads_the_server_store
              (Json (VObj [("locations", VArr [home] [])]))
              (VObj [("locations", VArr [home] [])]) "default" eq_refl eq_refl)
    as (_ & _ & Hsame).
  rewrite Hsame. reflexivity.
Defined.

(** A file that holds the number 5. *)
Lemma seed_fails_on_primitive_file_witness :
  Seed.main "u1" [home] (Some (Json (VNum (Some 5%Z))))
  = (Some TypeError, Some (Json (VNum (Some 5%Z)))).
Proof.
  destruct (seed_fails_on_primitive_file (VNum (Some 5%Z)) "u1" eq_refl eq_refl)
    as (_ & _ & _ & Hmain).
  apply Hmain.
Defined.


(** A tenant whose locations are missing. *)
Lemma seed_does_not_repair_witness :
  Seed.main "u1" [home]
    (Some (Json (VObj [("tenants", VObj [("u1", VObj [("devices", VArr [] [])])])])))
  = (Some TypeError,
     Some (Json (VObj [("tenants", VObj [("u1", VObj [("devices", VArr [] [])])])]))).
Proof.
  destruct (seed_does_not_repair "u1" home []
              [("tenants", VObj [("u1", VObj [("devices", VArr [] [])])])]
              [("u1", VObj [("devices", VArr [] [])])]
              [("devices", VArr [] [])]
              (Some (Json (VObj [("tenants",
                 VObj [("u1", VObj [("devices", VArr [] [])])])])))
              eq_refl eq_refl eq_refl eq_refl) as [Hmain _].
  exact Hmain.
Defined.



End Examples.
